(** * scripts/copy_non_investment_docx.py: classify-and-copy of report documents

    A shallow embedding of the script and of the part of its environment it
    touches (a file tree, the python-docx reader, the wall clock, standard
    output), followed by the properties of the script that the specification
    states.

    Conventions.
    - A Python [str] is the list of its Unicode code points ([list N]).
    - A [Path] is the list of its components below the root; [[]] is the root.
    - Effects go through the monad [M]: a computation takes a [World] and
      returns a value or a raised exception, together with the new world.
    - [print] appends a structured message to [stdout]; the decoration of the
      message text (emoji, wording) is not modelled, its data is.
    - [str.lower], the flag [DOCX_AVAILABLE] and the project root are
      parameters of the script.
    - What the operating system decides on its own (permissions, a full
      disk, an interrupt from the keyboard) enters through the fault fields
      of the world; what follows from the file tree (a missing source, a
      file that is no document, a directory in the way) is computed.
    - The order in which [rglob] lists a tree is not specified; the model
      lists in the order of the finite map, and the properties of the loop
      are proved for every list of candidates. *)

From Stdlib Require Import String Ascii NArith.
From stdpp Require Import base option list gmap.

Local Open Scope N_scope.

(** ** Python strings *)

Abbreviation str := (list N) (only parsing).

(** Code points of a UTF-8 encoded byte sequence (literals of this file are
    UTF-8). *)
Fixpoint utf8 (bs : list N) : list N :=
  match bs with
  | [] => []
  | b0 :: r0 =>
    if b0 <? 128 then b0 :: utf8 r0
    else match r0 with
    | [] => []
    | b1 :: r1 =>
      if b0 <? 224 then ((b0 - 192) * 64 + (b1 - 128)) :: utf8 r1
      else match r1 with
      | [] => []
      | b2 :: r2 =>
        if b0 <? 240
        then ((b0 - 224) * 4096 + (b1 - 128) * 64 + (b2 - 128)) :: utf8 r2
        else match r2 with
        | [] => []
        | b3 :: r3 =>
          ((b0 - 240) * 262144 + (b1 - 128) * 4096 + (b2 - 128) * 64
           + (b3 - 128)) :: utf8 r3
        end
      end
    end
  end.

Definition lit (s : string) : str :=
  utf8 (List.map N_of_ascii (list_ascii_of_string s)).

(** [str.isspace] for one code point: the characters [str.strip()] removes. *)
Definition isspace (c : N) : bool :=
  ((9 <=? c) && (c <=? 13)) || ((28 <=? c) && (c <=? 32))
  || (c =? 133) || (c =? 160) || (c =? 5760)
  || ((8192 <=? c) && (c <=? 8202))
  || (c =? 8232) || (c =? 8233) || (c =? 8239) || (c =? 8287)
  || (c =? 12288).

Fixpoint lstrip (s : str) : str :=
  match s with
  | [] => []
  | c :: t => if isspace c then lstrip t else s
  end.

Definition rstrip (s : str) : str := rev (lstrip (rev s)).

(** [s.strip()] *)
Definition strip (s : str) : str := rstrip (lstrip s).

(** [s.startswith(p)], also used on paths (component-wise). *)
Fixpoint startswith {A} `{EqDecision A} (s p : list A) {struct p} : bool :=
  match p, s with
  | [], _ => true
  | _ :: _, [] => false
  | y :: p', x :: s' => bool_decide (x = y) && startswith s' p'
  end.

(** [needle in hay] *)
Fixpoint contains (hay needle : str) : bool :=
  startswith hay needle
  || match hay with
     | [] => false
     | _ :: t => contains t needle
     end.

(** [s.endswith(p)] *)
Definition endswith (s p : str) : bool := startswith (rev s) (rev p).

(** [s.rfind(c)] for a single character; [None] is Python's -1. *)
Fixpoint rfind (c : N) (s : str) : option nat :=
  match s with
  | [] => None
  | x :: t =>
    match rfind c t with
    | Some i => Some (S i)
    | None => if x =? c then Some 0%nat else None
    end
  end.

(** ** pathlib *)

Abbreviation Path := (list (str)) (only parsing).

(** [p.name]: the final component, the empty string for the root. *)
Definition Path_name (p : Path) : str := default [] (last p).

(** [p / n] for a single component [n]; joining the empty string is the
    identity. *)
Definition joinpath (p : Path) (n : str) : Path :=
  match n with
  | [] => p
  | _ :: _ => p ++ [n]
  end.

Definition dot : N := 46.

(** [PurePath.suffix] and [PurePath.stem]: split at the last dot unless it is
    the first or the last character of the name. *)
Definition split_at_suffix (nm : str) : option nat :=
  match rfind dot nm with
  | Some i =>
    if ((0 <? i) && (i <? length nm - 1))%nat then Some i else None
  | None => None
  end.

Definition suffix_of_name (nm : str) : str :=
  match split_at_suffix nm with
  | Some i => drop i nm
  | None => []
  end.

Definition stem_of_name (nm : str) : str :=
  match split_at_suffix nm with
  | Some i => take i nm
  | None => nm
  end.

Definition Path_suffix (p : Path) : str := suffix_of_name (Path_name p).
Definition Path_stem (p : Path) : str := stem_of_name (Path_name p).

(** ** datetime *)

Record datetime := mkDatetime {
  year : N; month : N; day : N; hour : N; minute : N; second : N
}.

Definition digit (n : N) : N := 48 + n mod 10.
Definition pad2 (n : N) : str := [digit (n / 10); digit n].
Definition pad4 (n : N) : str :=
  [digit (n / 1000); digit (n / 100); digit (n / 10); digit n].

(** [strftime("%Y.%m.%d")] and [strftime("%H%M%S")], for the field ranges
    of a Python [datetime] (four-digit year, two-digit fields). *)
Definition strftime_Ymd (t : datetime) : str :=
  pad4 (year t) ++ [dot] ++ pad2 (month t) ++ [dot] ++ pad2 (day t).

Definition strftime_HMS (t : datetime) : str :=
  pad2 (hour t) ++ pad2 (minute t) ++ pad2 (second t).

(** ** The environment *)

(** What a file holds, as the python-docx reader sees it: a document with
    its paragraph texts in order, or bytes it cannot parse. *)
Inductive content :=
  | Docx (paragraphs : list str)
  | Blob (bytes : list N).

Inductive node :=
  | Dir
  | File (c : content).

(** Raised objects. [Exception] stands for every subclass of Python's
    [Exception], with its class name; [KeyboardInterrupt] and [SystemExit]
    derive from [BaseException] only and pass through [except Exception]. *)
Inductive exn :=
  | KeyboardInterrupt
  | SystemExit (code : N)
  | Exception (what : string).

Definition is_Exception (e : exn) : bool :=
  match e with
  | Exception _ => true
  | _ => false
  end.

(** Lines written to standard output, by the [print] call that writes them
    (source line in brackets). *)
Inductive msg :=
  | MsgDocxMissing                               (* [18-19] *)
  | MsgUnreadable (docx_path : Path) (e : exn)   (* [38] *)
  | MsgTargetDir (target_dir : Path)             (* [74] *)
  | MsgSingleFile (nm : str)                  (* [79] *)
  | MsgSourceMissing (source_dir : Path)         (* [84] *)
  | MsgFound (n : nat)                           (* [88] *)
  | MsgFilenameMode                              (* [91] *)
  | MsgCopied (nm : str)                      (* [124] *)
  | MsgSkipped (nm : str)                     (* [127] *)
  | MsgFileError (nm : str) (e : exn)         (* [130] *)
  | MsgDone (copied_count : nat) (target_dir : Path)  (* [132] *)
  | MsgBanner                                    (* [139-140] *)
  | MsgHint                                      (* [143-145] *)
  | MsgInvalidPath (file_path : Path)            (* [154] *)
  | MsgInterrupted                               (* [158] *)
  | MsgUnexpected (e : exn).                     (* [161] *)

(** Calls that reached the environment, in order. *)
Inductive event :=
  | EvMkdir (p : Path)
  | EvDocument (p : Path)
  | EvCopy2 (src dst : Path) (completed : bool).

(** The world a run acts on.
    - [fs]: the file tree.
    - [clock], [ticks]: [clock k] is what the [k]-th call of
      [datetime.now()] returns; [ticks] counts the calls made so far.
    - [open_fault], [copy_fault]: what the operating system (or the user, by
      an interrupt) makes an open or a copy raise, beyond what the file tree
      itself decides.
    - [stdout], [trace]: output and environment calls so far, oldest first. *)
Record World := mkWorld {
  fs : gmap Path node;
  clock : nat -> datetime;
  ticks : nat;
  open_fault : Path -> option exn;
  copy_fault : Path -> Path -> option exn;
  stdout : list msg;
  trace : list event
}.

Definition set_fs (f : gmap Path node) (w : World) : World :=
  mkWorld f (clock w) (ticks w) (open_fault w) (copy_fault w) (stdout w)
    (trace w).

Definition tick (w : World) : World :=
  mkWorld (fs w) (clock w) (S (ticks w)) (open_fault w) (copy_fault w)
    (stdout w) (trace w).

Definition emit (m : msg) (w : World) : World :=
  mkWorld (fs w) (clock w) (ticks w) (open_fault w) (copy_fault w)
    (stdout w ++ [m]) (trace w).

Definition record (ev : event) (w : World) : World :=
  mkWorld (fs w) (clock w) (ticks w) (open_fault w) (copy_fault w)
    (stdout w) (trace w ++ [ev]).

(** ** The monad of effects *)

Inductive result (A : Type) :=
  | Ok (a : A)
  | Raise (e : exn).
Arguments Ok {A} a.
Arguments Raise {A} e.

Definition M (A : Type) : Type := World -> result A * World.

Definition ret {A} (a : A) : M A := fun w => (Ok a, w).

Definition raise {A} (e : exn) : M A := fun w => (Raise e, w).

Definition bind {A B} (m : M A) (k : A -> M B) : M B :=
  fun w =>
    match m w with
    | (Ok a, w') => k a w'
    | (Raise e, w') => (Raise e, w')
    end.

(** [try: m except Exception as e: h e] *)
Definition try_except_Exception {A} (m : M A) (h : exn -> M A) : M A :=
  fun w =>
    match m w with
    | (Ok a, w') => (Ok a, w')
    | (Raise e, w') => if is_Exception e then h e w' else (Raise e, w')
    end.

(** [try: m except KeyboardInterrupt: h1 except Exception as e: h2 e] *)
Definition try_except_main {A} (m : M A) (h1 : M A) (h2 : exn -> M A) : M A :=
  fun w =>
    match m w with
    | (Ok a, w') => (Ok a, w')
    | (Raise KeyboardInterrupt, w') => h1 w'
    | (Raise (Exception s), w') => h2 (Exception s) w'
    | (Raise e, w') => (Raise e, w')
    end.

Declare Scope py_scope.
Delimit Scope py_scope with py.
Notation "x <- m ;; k" := (bind m (fun x => k))
  (at level 100, m at next level, right associativity) : py_scope.
Notation "m ;;; k" := (bind m (fun _ => k))
  (at level 100, right associativity) : py_scope.
Local Open Scope py_scope.

(** ** Primitives *)

Definition print (m : msg) : M unit := fun w => (Ok tt, emit m w).

(** [datetime.now()] *)
Definition datetime_now : M datetime :=
  fun w => (Ok (clock w (ticks w)), tick w).

Definition fs_is_dir (f : gmap Path node) (p : Path) : bool :=
  match p with
  | [] => true
  | _ :: _ => match f !! p with Some Dir => true | _ => false end
  end.

Definition fs_exists (f : gmap Path node) (p : Path) : bool :=
  match p with
  | [] => true
  | _ :: _ => match f !! p with Some _ => true | None => false end
  end.

(** [p.exists()] *)
Definition Path_exists (p : Path) : M bool :=
  fun w => (Ok (fs_exists (fs w) p), w).

(** The directory itself and its ancestors below the root, outermost
    first. *)
Definition ancestors_and_self (p : Path) : list Path :=
  List.map (fun n => take n p) (seq 1 (length p)).

Definition is_file (f : gmap Path node) (p : Path) : bool :=
  match f !! p with
  | Some (File _) => true
  | _ => false
  end.

Definition mkdir_blocked (f : gmap Path node) (p : Path) : bool :=
  existsb (is_file f) (ancestors_and_self p).

Definition make_dirs (f : gmap Path node) (p : Path)
  : gmap Path node :=
  foldr (fun q m => <[q := Dir]> m) f (ancestors_and_self p).

(** [p.mkdir(parents=True, exist_ok=True)]: raises, changing nothing, when
    [p] or one of its ancestors is a regular file; otherwise every missing
    directory on the way is created. *)
Definition Path_mkdir_parents_exist_ok (p : Path) : M unit :=
  fun w =>
    if mkdir_blocked (fs w) p
    then (Raise (Exception "FileExistsError"), w)
    else (Ok tt, record (EvMkdir p) (set_fs (make_dirs (fs w) p) w)).

(** Is [p] strictly below directory [d]? *)
Definition is_below (d p : Path) : bool :=
  startswith p d && (length d <? length p)%nat.

Definition docx_pattern : str := lit ".docx".

(** [list(d.rglob("*.docx"))]: every entry strictly below [d] whose name
    ends with ".docx", in the enumeration order of the file tree. *)
Definition Path_rglob_docx (d : Path) : M (list Path) :=
  fun w =>
    (Ok (List.filter
           (fun p => is_below d p && endswith (Path_name p) docx_pattern)
           (List.map fst (map_to_list (fs w)))), w).

(** [docx.Document(p)]: the paragraphs of the document at [p]; raises when
    the environment interferes or [p] is not a parseable document. *)
Definition Document (p : Path) : M (list str) :=
  fun w =>
    let w1 := record (EvDocument p) w in
    match open_fault w p with
    | Some e => (Raise e, w1)
    | None =>
      match fs w !! p with
      | Some (File (Docx paragraphs)) => (Ok paragraphs, w1)
      | _ => (Raise (Exception "PackageNotFoundError"), w1)
      end
    end.

(** Where [shutil.copy2(src, dst)] writes: into [dst] when [dst] is a
    directory, else at [dst]. *)
Definition copy2_dest (f : gmap Path node) (src dst : Path) : Path :=
  if fs_is_dir f dst then joinpath dst (Path_name src) else dst.

(** What [shutil.copy2(src, dst)] raises, if anything. *)
Definition copy2_error (w : World) (src dst : Path) : option exn :=
  match copy_fault w src dst with
  | Some e => Some e
  | None =>
    match fs w !! src with
    | Some (File _) =>
      let d := copy2_dest (fs w) src dst in
      if bool_decide (d = src) then Some (Exception "SameFileError")
      else if fs_is_dir (fs w) d then Some (Exception "IsADirectoryError")
      else if negb (fs_is_dir (fs w) (removelast d))
           then Some (Exception "FileNotFoundError")
           else None
    | Some Dir => Some (Exception "IsADirectoryError")
    | None => Some (Exception "FileNotFoundError")
    end
  end.

(** [shutil.copy2(src, dst)]: on success the destination holds the content
    of the source, replacing whatever file was there. *)
Definition shutil_copy2 (src dst : Path) : M unit :=
  fun w =>
    match copy2_error w src dst with
    | Some e => (Raise e, record (EvCopy2 src dst false) w)
    | None =>
      match fs w !! src with
      | Some nd =>
        (Ok tt,
         record (EvCopy2 src dst true)
           (set_fs (<[copy2_dest (fs w) src dst := nd]> (fs w)) w))
      | None => (Raise (Exception "FileNotFoundError"),
                 record (EvCopy2 src dst false) w)
      end
    end.

(** ** The script *)

Section Script.

(** [str.lower], the Unicode lowercasing of the Python runtime. *)
Variable lower : str -> str.

(** The module-level flag set by the guarded import of python-docx
    (lines 14-20). *)
Variable DOCX_AVAILABLE : bool.

(** [Path(__file__).parent.parent] *)
Variable project_root : Path.

Definition marker : str := lit "投资建议".

(** Lines 23-39. *)
Definition extract_first_paragraph (docx_path : Path) : M str :=
  try_except_Exception
    (doc <- Document docx_path ;;
     let paragraphs :=
       List.map strip
         (List.filter (fun p => negb (bool_decide (strip p = []))) doc) in
     ret (match paragraphs with
          | p :: _ => p
          | [] => []
          end))
    (fun e => print (MsgUnreadable docx_path e) ;;; ret []).

Definition investment_keywords : list str :=
  [lit "买入"; lit "卖出"; lit "持有"; lit "投资"; lit "建议"].

(** Lines 42-54. *)
Definition is_investment_advice_by_filename (filename : str) : bool :=
  let filename_lower := lower filename in
  existsb (fun keyword => contains filename_lower keyword)
    investment_keywords.

Definition target_base_dir : Path :=
  [lit "Users"; lit "liuqun"; lit "TradingAgents-CN"; lit "results"].

(** Lines 97-109: the value of [should_copy] when line 111 tests it. *)
Definition decide_should_copy (docx_file : Path) : M bool :=
  if DOCX_AVAILABLE then
    first_paragraph <- extract_first_paragraph docx_file ;;
    if startswith first_paragraph marker then ret false else ret true
  else
    if is_investment_advice_by_filename (Path_name docx_file)
    then ret false else ret true.

(** Lines 113-120: the path the copy is written to. *)
Definition choose_target_file (target_dir docx_file : Path) : M Path :=
  let target_file := joinpath target_dir (Path_name docx_file) in
  target_exists <- Path_exists target_file ;;
  if target_exists then
    now <- datetime_now ;;
    let timestamp := strftime_HMS now in
    let name_part := Path_stem target_file in
    let ext_part := Path_suffix target_file in
    ret (joinpath target_dir
           (name_part ++ lit "_" ++ timestamp ++ ext_part))
  else ret target_file.

(** Lines 96-127: the body of the [try] for one candidate; returns the
    new value of [copied_count]. *)
Definition process_candidate (target_dir docx_file : Path)
    (copied_count : nat) : M nat :=
  should_copy <- decide_should_copy docx_file ;;
  if should_copy then
    target_file <- choose_target_file target_dir docx_file ;;
    shutil_copy2 docx_file target_file ;;;
    print (MsgCopied (Path_name docx_file)) ;;;
    ret (copied_count + 1)%nat
  else
    print (MsgSkipped (Path_name docx_file)) ;;;
    ret copied_count.

(** Lines 96-130: the [try] statement for one candidate. *)
Definition try_candidate (target_dir docx_file : Path)
    (copied_count : nat) : M nat :=
  try_except_Exception
    (process_candidate target_dir docx_file copied_count)
    (fun e =>
       print (MsgFileError (Path_name docx_file) e) ;;;
       ret copied_count).

(** Lines 95-130: the loop over the candidates. *)
Fixpoint process_candidates (target_dir : Path) (docx_files : list Path)
    (copied_count : nat) : M nat :=
  match docx_files with
  | [] => ret copied_count
  | docx_file :: rest =>
    copied_count' <- try_candidate target_dir docx_file copied_count ;;
    process_candidates target_dir rest copied_count'
  end.

(** Lines 90-132: what follows the enumeration of the candidates. *)
Definition classify_and_copy (target_dir : Path) (docx_files : list Path)
    : M unit :=
  (if DOCX_AVAILABLE then ret tt else print MsgFilenameMode) ;;;
  copied_count <- process_candidates target_dir docx_files 0%nat ;;
  print (MsgDone copied_count target_dir).

(** Lines 57-132. *)
Definition copy_non_investment_docx_files (single_file : option Path)
    : M unit :=
  now <- datetime_now ;;
  let current_date := strftime_Ymd now in
  let target_dir := joinpath target_base_dir current_date in
  Path_mkdir_parents_exist_ok target_dir ;;;
  print (MsgTargetDir target_dir) ;;;
  match single_file with
  | Some file =>
    print (MsgSingleFile (Path_name file)) ;;;
    classify_and_copy target_dir [file]
  | None =>
    let source_dir := joinpath project_root (lit "results") in
    source_exists <- Path_exists source_dir ;;
    if negb source_exists then
      print (MsgSourceMissing source_dir)
    else
      docx_files <- Path_rglob_docx source_dir ;;
      print (MsgFound (length docx_files)) ;;;
      classify_and_copy target_dir docx_files
  end.

(** [sys.exit(code)] *)
Definition sys_exit (code : N) : M unit := raise (SystemExit code).

(** Lines 135-162. [sys_argv] is [sys.argv], each entry read as a path. *)
Definition main (sys_argv : list Path) : M unit :=
  print MsgBanner ;;;
  (if DOCX_AVAILABLE then ret tt else print MsgHint) ;;;
  try_except_main
    (match sys_argv with
     | _ :: file_path :: _ =>
       file_exists <- Path_exists file_path ;;
       if file_exists
          && bool_decide (lower (Path_suffix file_path) = lit ".docx")
       then copy_non_investment_docx_files (Some file_path)
       else print (MsgInvalidPath file_path)
     | _ => copy_non_investment_docx_files None
     end)
    (print MsgInterrupted ;;; sys_exit 1)
    (fun e => print (MsgUnexpected e) ;;; sys_exit 1).

(** Running the file as a script: the import block (lines 14-20), then
    [main()] (lines 165-166). Returns the exit status of the process. *)
Definition run_script (sys_argv : list Path) (w : World) : N * World :=
  match ((if DOCX_AVAILABLE then ret tt else print MsgDocxMissing) ;;;
         main sys_argv) w with
  | (Ok _, w') => (0, w')
  | (Raise (SystemExit code), w') => (code, w')
  | (Raise _, w') => (1, w')
  end.

End Script.

(** ** Notions the properties are stated with *)

(** The first paragraph that is not empty once trimmed, trimmed; [None]
    when the document has no such paragraph. *)
Fixpoint first_nonempty_paragraph (doc : list str) : option (str) :=
  match doc with
  | [] => None
  | p :: rest =>
    if bool_decide (strip p = []) then first_nonempty_paragraph rest
    else Some (strip p)
  end.

(** [needle] occurs in [hay] as a contiguous run. *)
Definition occurs_in (needle hay : str) : Prop :=
  exists before after, hay = before ++ needle ++ after.

(** The destination directory of a run that starts in world [w]. *)
Definition target_dir_at (w : World) : Path :=
  joinpath target_base_dir (strftime_Ymd (clock w (ticks w))).

(** The path lines 113-120 choose for candidate [docx_file] in world [w]. *)
Definition chosen_target (w : World) (target_dir docx_file : Path) : Path :=
  let target_file := joinpath target_dir (Path_name docx_file) in
  if fs_exists (fs w) target_file then
    joinpath target_dir
      (Path_stem target_file ++ lit "_"
       ++ strftime_HMS (clock w (ticks w)) ++ Path_suffix target_file)
  else target_file.

(** Readings of the trace. *)
Definition is_completed_copy (ev : event) : bool :=
  match ev with
  | EvCopy2 _ _ true => true
  | _ => false
  end.

Definition completed_copies (tr : list event) : nat :=
  length (List.filter is_completed_copy tr).

Definition copy_source (ev : event) : option Path :=
  match ev with
  | EvCopy2 src _ _ => Some src
  | _ => None
  end.

Definition completed_copy_target (ev : event) : option Path :=
  match ev with
  | EvCopy2 _ dst true => Some dst
  | _ => None
  end.

Definition opened_document (ev : event) : option Path :=
  match ev with
  | EvDocument p => Some p
  | _ => None
  end.

(** Readings of the output: the one line that closes a candidate. *)
Definition closing_line (m : msg) : option (str) :=
  match m with
  | MsgCopied nm | MsgSkipped nm | MsgFileError nm _ => Some nm
  | _ => None
  end.

Definition is_copied_line (m : msg) : bool :=
  match m with MsgCopied _ => true | _ => false end.

Definition is_skipped_line (m : msg) : bool :=
  match m with MsgSkipped _ => true | _ => false end.

Definition is_error_line (m : msg) : bool :=
  match m with MsgFileError _ _ => true | _ => false end.

Definition is_done_line (m : msg) : bool :=
  match m with MsgDone _ _ => true | _ => false end.

Definition count_lines (f : msg -> bool) (out : list msg) : nat :=
  length (List.filter f out).

(** No open or copy of a candidate in [files] is interrupted: whatever the
    environment makes them raise is an [Exception]. *)
Definition only_Exceptions (w : World) (files : list Path) : Prop :=
  forall p, p ∈ files ->
    (forall e, open_fault w p = Some e -> is_Exception e = true)
    /\ (forall dst e, copy_fault w p dst = Some e -> is_Exception e = true).

(** Candidate [p] is investment advice in world [w] under the strategy in
    force. *)
Definition classifies_as_advice (lower : str -> str)
    (DOCX_AVAILABLE : bool) (w : World) (p : Path) : Prop :=
  if DOCX_AVAILABLE then
    open_fault w p = None
    /\ exists paragraphs first,
         fs w !! p = Some (File (Docx paragraphs))
         /\ first_nonempty_paragraph paragraphs = Some first
         /\ marker `prefix_of` first
  else is_investment_advice_by_filename lower (Path_name p) = true.

(** The candidates a directory-mode run finds in world [w]. *)
Definition candidates_at (project_root : Path) (w : World) : list Path :=
  List.filter
    (fun p => is_below (joinpath project_root (lit "results")) p
              && endswith (Path_name p) docx_pattern)
    (List.map fst (map_to_list (fs w))).

(** The lines [main] and the import block print before anything else. *)
Definition opening_lines (DOCX_AVAILABLE : bool) : list msg :=
  if DOCX_AVAILABLE then [MsgBanner] else [MsgDocxMissing; MsgBanner; MsgHint].


(** What [docx.Document(p)] gives in world [w]. *)
Definition Document_outcome (w : World) (p : Path)
  : result (list str) :=
  fst (Document p w).

(** World [w'] comes after [w]: it has printed [out] and called the
    environment as [tr] says since, under the same clock and faults. *)
Record extends (w w' : World) (out : list msg) (tr : list event) : Prop :=
  mkExtends {
    ext_stdout : stdout w' = stdout w ++ out;
    ext_trace : trace w' = trace w ++ tr;
    ext_open_fault : open_fault w' = open_fault w;
    ext_copy_fault : copy_fault w' = copy_fault w;
    ext_clock : clock w' = clock w
  }.

(** The world once the opening lines are printed. *)
Definition after_opening (DOCX_AVAILABLE : bool) (w : World) : World :=
  fold_left (fun w m => emit m w) (opening_lines DOCX_AVAILABLE) w.

(** The fixed source directory of a directory-mode run. *)
Definition source_dir_of (project_root : Path) : Path :=
  joinpath project_root (lit "results").

(** The arguments make [main] call [copy_non_investment_docx_files]: there
    is no argument, or the first one names an existing path whose suffix
    lowercases to ".docx". *)
Definition calls_the_copier (lower : str -> str) (sys_argv : list Path)
    (w : World) : Prop :=
  match sys_argv with
  | _ :: file_path :: _ =>
    fs_exists (fs w) file_path = true
    /\ lower (Path_suffix file_path) = lit ".docx"
  | _ => True
  end.

(** The environment never makes an open or a copy raise [SystemExit]. *)
Definition no_injected_exit (w : World) : Prop :=
  (forall p code, open_fault w p <> Some (SystemExit code))
  /\ (forall src dst code, copy_fault w src dst <> Some (SystemExit code)).

(** The classification of candidate [p] in world [w] ends with
    [should_copy] true. *)
Definition says_copy (lower : str -> str) (DOCX_AVAILABLE : bool)
    (w : World) (p : Path) : Prop :=
  fst (decide_should_copy lower DOCX_AVAILABLE p w) = Ok true.

(** The name lines 117-120 give on a collision at time [t]. *)
Definition renamed (nm : str) (t : datetime) : str :=
  stem_of_name nm ++ lit "_" ++ strftime_HMS t ++ suffix_of_name nm.

(** ** Example worlds *)

Module Examples.

(** Lowercasing of the ASCII letters, other characters unchanged. *)
Definition ascii_lower (s : str) : str :=
  List.map (fun c => if (65 <=? c) && (c <=? 90) then c + 32 else c) s.

Definition noon : datetime := mkDatetime 2025 8 14 12 0 0.

Definition proj : Path := [lit "proj"].

Definition script : Path := [lit "proj"; lit "scripts"; lit "copy.py"].

Definition results : Path := [lit "proj"; lit "results"].

Definition today : Path := target_base_dir ++ [lit "2025.08.14"].

(** A world with the given file tree, a clock stopped at noon, no faults,
    and nothing printed or called yet. *)
Definition quiet (f : gmap Path node) : World :=
  mkWorld f (fun _ => noon) 0 (fun _ => None) (fun _ _ => None) [] [].

Definition observation_A : content :=
  Docx [lit " "; lit "市场观察：A"; lit "投资建议：买入"].
Definition observation_B : content := Docx [lit "市场观察：B"].
Definition advice : content := Docx [lit ""; lit "  投资建议：买入XYZ"].

Definition report_a : Path := results ++ [lit "a"; lit "report.docx"].
Definition report_b : Path := results ++ [lit "b"; lit "report.docx"].
Definition advice_b : Path := results ++ [lit "b"; lit "advice.docx"].
Definition broken_b : Path := results ++ [lit "b"; lit "broken.docx"].

Definition source_tree : list (Path * node) :=
  [ (proj, Dir); (results, Dir);
    (results ++ [lit "a"], Dir); (results ++ [lit "b"], Dir);
    (report_a, File observation_A);
    (report_b, File observation_B);
    (advice_b, File advice);
    (broken_b, File (Blob [80; 75])) ].

Definition fs_reports : gmap Path node :=
  list_to_map source_tree.

(** The same tree with today's destination directory in place. *)
Definition fs_reports_dest : gmap Path node :=
  make_dirs fs_reports today.

(** Two documents with different names, different later paragraphs and the
    same first non-empty paragraph once trimmed. *)
Definition twin_1 : Path := results ++ [lit "投资建议.docx"].
Definition twin_2 : Path := results ++ [lit "notes.docx"].

Definition fs_twins : gmap Path node :=
  list_to_map
    [ (proj, Dir); (results, Dir);
      (twin_1, File (Docx [lit "市场观察 "; lit "投资建议：卖出"]));
      (twin_2, File (Docx [lit ""; lit " 市场观察"; lit "附录"])) ].




(** An empty machine: nothing but the root directory. *)
Definition nowhere : World := quiet ∅.

Definition memo_txt : Path := [lit "proj"; lit "memo.txt"].



(** The example tree on a machine that refuses every copy of
    [a/report.docx]. *)
Definition refusing : World :=
  mkWorld fs_reports_dest (fun _ => noon) 0
    (fun _ => None)
    (fun src _ =>
       if bool_decide (src = report_a)
       then Some (Exception "PermissionError") else None)
    [] [].

Definition four_candidates : list Path :=
  [report_a; advice_b; broken_b;
   report_b].



(** A source tree in which every document opens with the marker. *)
Definition advice_1 : Path :=
  results ++ [lit "AAPL"; lit "report.docx"].
Definition advice_2 : Path := results ++ [lit "summary.docx"].

Definition fs_only_advice : gmap Path node :=
  list_to_map
    [ (proj, Dir); (results, Dir);
      (results ++ [lit "AAPL"], Dir);
      (advice_1, File advice);
      (advice_2, File (Docx [lit "投资建议"])) ].



(** Two reports of the same name under two tickers, and a destination
    directory that already holds a [report.docx] from an earlier run of the
    day. *)
Definition earlier_copy : content := Docx [lit "早盘观察"].

Definition fs_earlier_copy : gmap Path node :=
  <[today ++ [lit "report.docx"] := File earlier_copy]>
    (make_dirs
       (list_to_map
          [ (proj, Dir); (results, Dir);
            (results ++ [lit "a"], Dir);
            (results ++ [lit "b"], Dir);
            (report_a, File observation_A);
            (report_b, File observation_B) ])
       today).

(** What the destination directory holds in a file tree. *)
Definition destination_listing (f : gmap Path node)
  : list (Path * node) :=
  List.filter (fun e => is_below today (fst e)) (map_to_list f).

(** A machine on which [/Users] is a regular file. *)
Definition fs_users_is_file : gmap Path node :=
  <[[lit "Users"] := File (Blob [])]> fs_reports.

(** The example tree on a machine where the user interrupts the open of
    [b/report.docx]. *)
Definition interrupting : World :=
  mkWorld fs_reports (fun _ => noon) 0
    (fun p =>
       if bool_decide (p = report_b) then Some KeyboardInterrupt else None)
    (fun _ _ => None) [] [].

(** The project checked out where the destination is hard-wired. *)
Definition home_root : Path :=
  [lit "Users"; lit "liuqun"; lit "TradingAgents-CN"].

Definition home_report : Path := target_base_dir ++ [lit "AAPL"; lit "report.docx"].

Definition fs_home : gmap Path node :=
  make_dirs
    (list_to_map
       [ (target_base_dir ++ [lit "AAPL"], Dir);
         (home_report, File observation_B) ])
    today.

End Examples.
(** * Properties *)

(** ** Strings and paths *)

(** The literals of the script, as code points. *)
Example marker_code_points : marker = [25237; 36164; 24314; 35758].
Proof. reflexivity. Qed.

Example investment_keywords_code_points :
  investment_keywords
  = [[20080; 20837]; [21334; 20986]; [25345; 26377]; [25237; 36164];
     [24314; 35758]].
Proof. reflexivity. Qed.

(** [strip] removes ASCII and ideographic white space at both ends only. *)
Example strip_example :
  strip ([12288; 9] ++ lit "投资 建议" ++ [32; 10]) = lit "投资 建议".
Proof. reflexivity. Qed.

(** [stem] and [suffix] as pathlib computes them. *)
Example stem_suffix_examples :
  (stem_of_name (lit "a.b.docx"), suffix_of_name (lit "a.b.docx"))
  = (lit "a.b", lit ".docx")
  /\ (stem_of_name (lit ".docx"), suffix_of_name (lit ".docx"))
     = (lit ".docx", [])
  /\ (stem_of_name (lit "x."), suffix_of_name (lit "x.")) = (lit "x.", [])
  /\ (stem_of_name (lit "a..docx"), suffix_of_name (lit "a..docx"))
     = (lit "a.", lit ".docx").
Proof. repeat split; reflexivity. Qed.

Example strftime_examples :
  strftime_Ymd (mkDatetime 2025 8 4 9 5 0) = lit "2025.08.04"
  /\ strftime_HMS (mkDatetime 2025 8 4 9 5 0) = lit "090500".
Proof. split; reflexivity. Qed.

Lemma startswith_prefix_of {A} `{EqDecision A} (s p : list A) :
  startswith s p = true <-> p `prefix_of` s.
Proof.
  revert s. induction p as [|y p IH]; intros s; simpl.
  - split; [intros _; apply prefix_nil | done].
  - destruct s as [|x s].
    + split; [done | intros Hp; by apply prefix_nil_not in Hp].
    + rewrite andb_true_iff, bool_decide_eq_true, IH. split.
      * intros [-> Hp]. by apply prefix_cons.
      * intros Hp. split; [symmetry; by eapply prefix_cons_inv_1
                          | by eapply prefix_cons_inv_2].
Qed.

Lemma startswith_app {A} `{EqDecision A} (p r : list A) :
  startswith (p ++ r) p = true.
Proof. apply startswith_prefix_of. by apply prefix_app_r. Qed.

Lemma contains_occurs_in (hay needle : str) :
  contains hay needle = true <-> occurs_in needle hay.
Proof.
  unfold occurs_in. induction hay as [|c hay IH].
  - simpl. rewrite orb_false_r, startswith_prefix_of. split.
    + intros [k Hk]. exists [], k. done.
    + intros (b & a & Hba). destruct b; simpl in Hba; [by exists a | done].
  - cbn [contains]. rewrite orb_true_iff, IH, startswith_prefix_of. split.
    + intros [[k Hk] | (b & a & Hba)].
      * exists [], k. done.
      * exists (c :: b), a. by rewrite Hba.
    + intros (b & a & Hba). destruct b as [|c' b].
      * left. by exists a.
      * right. exists b, a. by injection Hba.
Qed.

Lemma first_paragraph_expression (doc : list str) :
  match List.map strip
          (List.filter (fun p => negb (bool_decide (strip p = []))) doc) with
  | p :: _ => p
  | [] => []
  end = default [] (first_nonempty_paragraph doc).
Proof.
  induction doc as [|p doc IH]; [done|].
  simpl. destruct (bool_decide (strip p = [])); simpl; done.
Qed.


Lemma joinpath_cons (p : Path) (c : N) (n : str) :
  joinpath p (c :: n) = p ++ [c :: n].
Proof. reflexivity. Qed.

Lemma is_below_app (d : Path) (x : str) (r : Path) :
  is_below d (d ++ x :: r) = true.
Proof.
  unfold is_below. rewrite startswith_app. simpl.
  apply Nat.ltb_lt. rewrite length_app. simpl. lia.
Qed.

(** ** Worlds and the monad *)

Lemma extends_refl (w : World) : extends w w [] [].
Proof. split; rewrite ?app_nil_r; done. Qed.

Lemma extends_trans (w1 w2 w3 : World) out1 out2 tr1 tr2 :
  extends w1 w2 out1 tr1 -> extends w2 w3 out2 tr2 ->
  extends w1 w3 (out1 ++ out2) (tr1 ++ tr2).
Proof.
  intros [] []. split; rewrite ?app_assoc; congruence.
Qed.

Lemma extends_emit (w : World) (m : msg) : extends w (emit m w) [m] [].
Proof. split; simpl; rewrite ?app_nil_r; done. Qed.

Lemma extends_record (w : World) (ev : event) :
  extends w (record ev w) [] [ev].
Proof. split; simpl; rewrite ?app_nil_r; done. Qed.



Lemma Document_run (p : Path) (w : World) :
  Document p w = (Document_outcome w p, record (EvDocument p) w).
Proof.
  unfold Document_outcome, Document.
  destruct (open_fault w p); [done|].
  destruct (fs w !! p) as [[|[]]|]; done.
Qed.

Lemma Document_outcome_Ok (p : Path) (w : World) paragraphs :
  Document_outcome w p = Ok paragraphs <->
  open_fault w p = None /\ fs w !! p = Some (File (Docx paragraphs)).
Proof.
  unfold Document_outcome, Document.
  destruct (open_fault w p); simpl; [intuition congruence|].
  destruct (fs w !! p) as [[|[]]|]; simpl; intuition congruence.
Qed.

Lemma Document_outcome_Raise (p : Path) (w : World) e :
  Document_outcome w p = Raise e ->
  open_fault w p = Some e \/ is_Exception e = true.
Proof.
  unfold Document_outcome, Document.
  destruct (open_fault w p); simpl; [intros [= ->]; by left|].
  destruct (fs w !! p) as [[|[]]|]; simpl; intros [= <-]; by right.
Qed.

Lemma extract_first_paragraph_run (p : Path) (w : World) :
  extract_first_paragraph p w =
  match Document_outcome w p with
  | Ok paragraphs =>
    (Ok (default [] (first_nonempty_paragraph paragraphs)),
     record (EvDocument p) w)
  | Raise e =>
    if is_Exception e
    then (Ok [], emit (MsgUnreadable p e) (record (EvDocument p) w))
    else (Raise e, record (EvDocument p) w)
  end.
Proof.
  unfold extract_first_paragraph, try_except_Exception, bind.
  rewrite Document_run.
  destruct (Document_outcome w p) as [ps|e]; simpl.
  - unfold ret. by rewrite first_paragraph_expression.
  - by destruct (is_Exception e).
Qed.

Lemma choose_target_file_run (target_dir f : Path) (w : World) :
  choose_target_file target_dir f w =
  (Ok (chosen_target w target_dir f),
   if fs_exists (fs w) (joinpath target_dir (Path_name f)) then tick w
   else w).
Proof.
  unfold choose_target_file, chosen_target, bind, Path_exists, ret.
  by destruct (fs_exists _ _).
Qed.

Lemma copy2_error_raises (w : World) (src dst : Path) e :
  copy2_error w src dst = Some e ->
  copy_fault w src dst = Some e \/ is_Exception e = true.
Proof.
  unfold copy2_error.
  destruct (copy_fault w src dst); [intros [= ->]; by left|].
  destruct (fs w !! src) as [[|c]|]; [intros [= <-]; by right|
                                      |intros [= <-]; by right].
  repeat case_match; intros [= <-]; by right.
Qed.

Lemma copy2_error_None_source (w : World) (src dst : Path) :
  copy2_error w src dst = None ->
  exists c, fs w !! src = Some (File c).
Proof.
  unfold copy2_error. destruct (copy_fault w src dst); [done|].
  destruct (fs w !! src) as [[|c]|]; [done| |done]. by exists c.
Qed.

Lemma shutil_copy2_run (src dst : Path) (w : World) :
  shutil_copy2 src dst w =
  match copy2_error w src dst with
  | Some e => (Raise e, record (EvCopy2 src dst false) w)
  | None =>
    (Ok tt,
     record (EvCopy2 src dst true)
       (set_fs (<[copy2_dest (fs w) src dst :=
                    default Dir (fs w !! src)]> (fs w)) w))
  end.
Proof.
  unfold shutil_copy2.
  destruct (copy2_error w src dst) eqn:He; [done|].
  destruct (copy2_error_None_source _ _ _ He) as [c ->]. done.
Qed.

Lemma count_lines_app (f : msg -> bool) (a b : list msg) :
  count_lines f (a ++ b) = (count_lines f a + count_lines f b)%nat.
Proof. unfold count_lines. by rewrite List.filter_app, length_app. Qed.

Lemma completed_copies_app (a b : list event) :
  completed_copies (a ++ b) = (completed_copies a + completed_copies b)%nat.
Proof. unfold completed_copies. by rewrite List.filter_app, length_app. Qed.

(** ** One candidate *)

Section Candidate.

Variable lower : str -> str.
Variable DOCX_AVAILABLE : bool.

Lemma decide_should_copy_run (f : Path) (w : World) :
  decide_should_copy lower DOCX_AVAILABLE f w =
  if DOCX_AVAILABLE then
    match Document_outcome w f with
    | Ok paragraphs =>
      (Ok (negb (startswith
                   (default [] (first_nonempty_paragraph paragraphs))
                   marker)),
       record (EvDocument f) w)
    | Raise e =>
      if is_Exception e
      then (Ok true, emit (MsgUnreadable f e) (record (EvDocument f) w))
      else (Raise e, record (EvDocument f) w)
    end
  else
    (Ok (negb (is_investment_advice_by_filename lower (Path_name f))), w).
Proof.
  unfold decide_should_copy. destruct DOCX_AVAILABLE.
  - unfold bind. rewrite extract_first_paragraph_run.
    destruct (Document_outcome w f) as [ps|e].
    + by destruct (startswith _ marker).
    + by destruct (is_Exception e).
  - by destruct (is_investment_advice_by_filename _ _).
Qed.

(** The classification of one candidate: what it prints and calls, and
    that it leaves the file tree alone. *)
Lemma decide_should_copy_step (f : Path) (w : World) :
  exists r w' out tr,
    decide_should_copy lower DOCX_AVAILABLE f w = (r, w')
    /\ extends w w' out tr
    /\ fs w' = fs w /\ ticks w' = ticks w
    /\ omap opened_document tr = (if DOCX_AVAILABLE then [f] else [])
    /\ omap copy_source tr = []
    /\ completed_copies tr = 0%nat
    /\ omap closing_line out = []
    /\ count_lines is_done_line out = 0%nat
    /\ count_lines is_copied_line out = 0%nat
    /\ count_lines is_skipped_line out = 0%nat
    /\ count_lines is_error_line out = 0%nat
    /\ (forall e, r = Raise e ->
          is_Exception e = false /\ open_fault w f = Some e).
Proof.
  rewrite decide_should_copy_run. destruct DOCX_AVAILABLE.
  - destruct (Document_outcome w f) as [ps|e] eqn:Hd.
    + eexists _, _, [], [EvDocument f]. split; [reflexivity|].
      split; [apply extends_record|]. repeat split; try done.
    + destruct (is_Exception e) eqn:He.
      * eexists _, _, [MsgUnreadable f e], [EvDocument f].
        split; [reflexivity|].
        split; [split; simpl; rewrite ?app_nil_r; done|].
        repeat split; try done.
      * eexists _, _, [], [EvDocument f]. split; [reflexivity|].
        split; [apply extends_record|]. repeat split; try done.
        all: match goal with H : Raise _ = Raise _ |- _ =>
               injection H as <- end.
        { done. }
        destruct (Document_outcome_Raise _ _ _ Hd); congruence.
  - eexists _, _, [], []. split; [reflexivity|].
    split; [apply extends_refl|]. repeat split; try done.
Qed.

Lemma copy_phase_run (target_dir f : Path) (n : nat) (w : World) :
  (target_file <- choose_target_file target_dir f ;;
   shutil_copy2 f target_file ;;;
   print (MsgCopied (Path_name f)) ;;;
   ret (n + 1)%nat) w =
  let w1 := if fs_exists (fs w) (joinpath target_dir (Path_name f))
            then tick w else w in
  let t := chosen_target w target_dir f in
  match copy2_error w f t with
  | Some e => (Raise e, record (EvCopy2 f t false) w1)
  | None =>
    (Ok (n + 1)%nat,
     emit (MsgCopied (Path_name f))
       (record (EvCopy2 f t true)
          (set_fs (<[copy2_dest (fs w) f t :=
                       default Dir (fs w !! f)]> (fs w)) w1)))
  end.
Proof.
  unfold bind at 1. rewrite choose_target_file_run. cbv zeta.
  set (t := chosen_target w target_dir f).
  set (w1 := if fs_exists _ _ then tick w else w).
  assert (Hfs : fs w1 = fs w) by (subst w1; by destruct (fs_exists _ _)).
  assert (Hcf : copy2_error w1 f t = copy2_error w f t).
  { unfold copy2_error. rewrite Hfs.
    subst w1; by destruct (fs_exists _ _). }
  unfold bind. rewrite shutil_copy2_run, Hcf, Hfs.
  by destruct (copy2_error w f t).
Qed.

Ltac ext_world :=
  split; simpl; rewrite ?app_nil_r; done.

Ltac list_facts :=
  rewrite ?omap_app, ?count_lines_app, ?completed_copies_app.

(** One pass through the [try] statement of the loop. *)
Lemma try_candidate_step (target_dir f : Path) (n : nat)
    (w : World) :
  exists r w' out tr,
    try_candidate lower DOCX_AVAILABLE target_dir f n w = (r, w')
    /\ extends w w' out tr
    /\ omap opened_document tr = (if DOCX_AVAILABLE then [f] else [])
    /\ omap copy_source tr `sublist_of` [f]
    /\ count_lines is_done_line out = 0%nat
    /\ count_lines is_copied_line out = completed_copies tr
    /\ (completed_copies tr = 0%nat -> fs w' = fs w)
    /\ match r with
       | Ok c =>
         omap closing_line out = [Path_name f]
         /\ c = (n + completed_copies tr)%nat
         /\ (count_lines is_copied_line out
             + count_lines is_skipped_line out
             + count_lines is_error_line out = 1)%nat
       | Raise e =>
         is_Exception e = false
         /\ (open_fault w f = Some e
             \/ exists dst, copy_fault w f dst = Some e)
         /\ omap closing_line out = []
         /\ completed_copies tr = 0%nat
       end.
Proof.
  unfold try_candidate, try_except_Exception, process_candidate.
  unfold bind at 1.
  destruct (decide_should_copy_step f w)
    as (r1 & w1 & o1 & t1 & Hrun & Hext & Hfs & Htk & Hop & Hcs & Hcc
        & Hcl & Hd & Hc & Hs & He & Hraise).
  rewrite Hrun. destruct r1 as [[|]|e].
  - (* should_copy *)
    rewrite copy_phase_run. cbv zeta.
    set (t := chosen_target w1 target_dir f).
    destruct (copy2_error w1 f t) as [e|] eqn:Hce.
    + destruct (is_Exception e) eqn:HE.
      * unfold bind, print, ret.
        eexists _, _, (o1 ++ [MsgFileError (Path_name f) e]),
          (t1 ++ [EvCopy2 f t false]).
        split; [reflexivity|].
        split. { eapply extends_trans; [exact Hext|].
                 destruct (fs_exists _ _); ext_world. }
        list_facts. rewrite Hop, Hcs, Hcc, Hcl, Hd, Hc, Hs, He. simpl.
        repeat split; try done.
        -- by destruct DOCX_AVAILABLE.
        -- intros _. rewrite <- Hfs. by destruct (fs_exists _ _).
      * eexists _, _, o1, (t1 ++ [EvCopy2 f t false]).
        split; [reflexivity|].
        split. { rewrite <- (app_nil_r o1). eapply extends_trans;
                   [exact Hext|]. destruct (fs_exists _ _); ext_world. }
        list_facts. rewrite Hop, Hcs, Hcc, Hcl, Hd, Hc. simpl.
        repeat split; try done.
        -- by destruct DOCX_AVAILABLE.
        -- intros _. rewrite <- Hfs. by destruct (fs_exists _ _).
        -- right. exists t.
           destruct (copy2_error_raises _ _ _ _ Hce) as [Hf|Hf];
             [|congruence].
           by rewrite <- (ext_copy_fault _ _ _ _ Hext).
    + eexists _, _, (o1 ++ [MsgCopied (Path_name f)]),
        (t1 ++ [EvCopy2 f t true]).
      split; [reflexivity|].
      split. { eapply extends_trans; [exact Hext|].
               destruct (fs_exists _ _); ext_world. }
      list_facts. rewrite Hop, Hcs, Hcc, Hcl, Hd, Hc, Hs, He. simpl.
      repeat split; try done.
      by destruct DOCX_AVAILABLE.
  - (* skipped *)
    unfold bind, print, ret.
    eexists _, _, (o1 ++ [MsgSkipped (Path_name f)]), t1.
    split; [reflexivity|].
    split. { rewrite <- (app_nil_r t1). eapply extends_trans;
               [exact Hext|]. ext_world. }
    list_facts. rewrite Hop, Hcs, Hcc, Hcl, Hd, Hc, Hs, He. simpl.
    repeat split; try done. apply sublist_nil_l.
  - (* the classification was interrupted *)
    destruct (Hraise e eq_refl) as [HE Hof]. rewrite HE.
    eexists _, _, o1, t1. split; [reflexivity|].
    split; [exact Hext|].
    rewrite Hop, Hcs, Hcc, Hcl, Hd, Hc.
    repeat split; try done; [apply sublist_nil_l | by left].
Qed.

End Candidate.

(** ** The loop *)

Section Loop.

Variable lower : str -> str.
Variable DOCX_AVAILABLE : bool.

Lemma process_candidates_run (target_dir : Path)
    (files : list Path) (n : nat) (w : World) :
  exists r w' out tr,
    process_candidates lower DOCX_AVAILABLE target_dir files n w = (r, w')
    /\ extends w w' out tr
    /\ omap copy_source tr `sublist_of` files
    /\ count_lines is_done_line out = 0%nat
    /\ count_lines is_copied_line out = completed_copies tr
    /\ (completed_copies tr = 0%nat -> fs w' = fs w)
    /\ match r with
       | Ok c =>
         omap closing_line out = List.map Path_name files
         /\ omap opened_document tr
            = (if DOCX_AVAILABLE then files else [])
         /\ c = (n + completed_copies tr)%nat
         /\ (count_lines is_copied_line out
             + count_lines is_skipped_line out
             + count_lines is_error_line out = length files)%nat
       | Raise e =>
         is_Exception e = false
         /\ exists p, p ∈ files
              /\ (open_fault w p = Some e
                  \/ exists dst, copy_fault w p dst = Some e)
       end.
Proof.
  revert n w. induction files as [|f rest IH]; intros n w.
  - exists (Ok n), w, [], []. split; [reflexivity|].
    split; [apply extends_refl|].
    repeat split; try done. by destruct DOCX_AVAILABLE.
  - cbn [process_candidates]. unfold bind.
    destruct (try_candidate_step lower DOCX_AVAILABLE target_dir f n w)
      as (r1 & w1 & o1 & t1 & Hrun & Hext & Hop & Hcs & Hd & Hc & Hfs
          & Hr).
    rewrite Hrun. destruct r1 as [c1|e].
    + destruct Hr as (Hcl & Hc1 & Hsum).
      destruct (IH c1 w1)
        as (r2 & w2 & o2 & t2 & Hrun2 & Hext2 & Hcs2 & Hd2 & Hc2 & Hfs2
            & Hr2).
      exists r2, w2, (o1 ++ o2), (t1 ++ t2). split; [exact Hrun2|].
      split; [by eapply extends_trans|].
      rewrite !omap_app, !count_lines_app, completed_copies_app.
      split. { change (f :: rest) with ([f] ++ rest).
               by apply sublist_app. }
      split; [lia|]. split; [lia|].
      split. { intros H0. rewrite Hfs2, Hfs; [done|lia|lia]. }
      destruct r2 as [c2|e].
      * destruct Hr2 as (Hcl2 & Hop2 & Hc2' & Hsum2).
        rewrite Hcl, Hcl2, Hop, Hop2. simpl.
        repeat split; [by destruct DOCX_AVAILABLE|lia|lia].
      * destruct Hr2 as (HE & p & Hp & Hfault).
        split; [done|]. exists p. split; [by apply list_elem_of_further|].
        rewrite <- (ext_open_fault _ _ _ _ Hext).
        by rewrite <- (ext_copy_fault _ _ _ _ Hext).
    + destruct Hr as (HE & Hfault & Hcl & Hcc).
      exists (Raise e), w1, o1, t1. split; [reflexivity|].
      split; [exact Hext|].
      split. { change (f :: rest) with ([f] ++ rest).
               by apply sublist_inserts_r. }
      repeat split; try done.
      exists f. split; [apply list_elem_of_here | done].
Qed.

(** Without an interrupt the loop runs to its end. *)
Lemma process_candidates_completes (target_dir : Path)
    (files : list Path) (n : nat) (w : World) :
  only_Exceptions w files ->
  exists c w',
    process_candidates lower DOCX_AVAILABLE target_dir files n w
    = (Ok c, w').
Proof.
  intros Hno.
  destruct (process_candidates_run target_dir files n w)
    as (r & w' & out & tr & Hrun & _ & _ & _ & _ & _ & Hr).
  destruct r as [c|e]; [by exists c, w'|].
  destruct Hr as (HE & p & Hp & [Ho|[dst Hc]]);
    destruct (Hno p Hp) as [H1 H2].
  - specialize (H1 e Ho). congruence.
  - specialize (H2 dst e Hc). congruence.
Qed.

End Loop.

(** ** The filename strategy *)

(** C2. Filename fallback strategy: when python-docx is unavailable
    ([DOCX_AVAILABLE] is [false]), the classification of a candidate reads
    nothing but its name, in any world: [should_copy] is the negation of
    the verdict [is_investment_advice_by_filename], and that verdict is
    [true] exactly when the lowercased file name contains one of the
    keywords 买入, 卖出, 持有, 投资, 建议. *)
Theorem filename_strategy_verdict (lower : str -> str)
    (docx_file : Path) (w : World) :
  decide_should_copy lower false docx_file w
  = (Ok (negb (is_investment_advice_by_filename lower (Path_name docx_file))),
     w)
  /\ (is_investment_advice_by_filename lower (Path_name docx_file) = true
      <-> exists keyword,
            keyword ∈ [lit "买入"; lit "卖出"; lit "持有"; lit "投资";
                        lit "建议"]
            /\ occurs_in keyword (lower (Path_name docx_file))).
Proof.
  split.
  - by rewrite decide_should_copy_run.
  - unfold is_investment_advice_by_filename.
    rewrite existsb_exists. split.
    + intros (kw & Hin & Hc). exists kw. split.
      * by apply list_elem_of_In.
      * by apply contains_occurs_in.
    + intros (kw & Hin & Hc). exists kw. split.
      * by apply list_elem_of_In in Hin.
      * by apply contains_occurs_in.
Qed.

(** ** The content strategy *)

Lemma process_candidate_after_decision (lower : str -> str)
    (DOCX_AVAILABLE : bool) (target_dir f : Path) (n : nat)
    (w w1 : World) (b : bool) :
  decide_should_copy lower DOCX_AVAILABLE f w = (Ok b, w1) ->
  process_candidate lower DOCX_AVAILABLE target_dir f n w =
  if b then
    (target_file <- choose_target_file target_dir f ;;
     shutil_copy2 f target_file ;;;
     print (MsgCopied (Path_name f)) ;;;
     ret (n + 1)%nat) w1
  else (Ok n, emit (MsgSkipped (Path_name f)) w1).
Proof.
  intros H. unfold process_candidate. unfold bind at 1. rewrite H.
  by destruct b.
Qed.

Lemma chosen_target_in_target_dir (w : World) (target_dir f : Path) :
  Path_name f <> [] ->
  exists x, chosen_target w target_dir f = target_dir ++ [x].
Proof.
  intros Hn. unfold chosen_target. destruct (fs_exists _ _).
  - replace (lit "_") with [95] by reflexivity.
    destruct (Path_stem _); simpl; eauto.
  - destruct (Path_name f) as [|c nm]; [done|]. simpl. eauto.
Qed.

Lemma copy_destination_below (w : World) (target_dir f : Path) :
  Path_name f <> [] ->
  is_below target_dir
    (copy2_dest (fs w) f (chosen_target w target_dir f)) = true.
Proof.
  intros Hn. destruct (chosen_target_in_target_dir w target_dir f Hn)
    as [x ->].
  unfold copy2_dest. destruct (fs_is_dir _ _).
  - destruct (Path_name f) as [|c nm]; [done|].
    rewrite joinpath_cons, <- app_assoc. apply is_below_app.
  - apply is_below_app.
Qed.

(** What the copy of a readable, not-advice candidate leaves behind. *)
Lemma process_candidate_copies (lower : str -> str)
    (DOCX_AVAILABLE : bool) (target_dir f : Path) (n : nat)
    (w w1 : World) (c : content) :
  decide_should_copy lower DOCX_AVAILABLE f w = (Ok true, w1) ->
  fs w1 = fs w -> ticks w1 = ticks w -> clock w1 = clock w ->
  copy_fault w1 = copy_fault w ->
  fs w !! f = Some (File c) ->
  copy2_error w f (chosen_target w target_dir f) = None ->
  exists w',
    process_candidate lower DOCX_AVAILABLE target_dir f n w
    = (Ok (n + 1)%nat, w')
    /\ fs w' = <[copy2_dest (fs w) f (chosen_target w target_dir f)
                 := File c]> (fs w)
    /\ trace w'
       = trace w1 ++ [EvCopy2 f (chosen_target w target_dir f) true]
    /\ stdout w' = stdout w1 ++ [MsgCopied (Path_name f)].
Proof.
  intros Hd Hfs Htk Hck Hcf Hsrc Herr.
  rewrite (process_candidate_after_decision _ _ _ _ _ _ _ _ Hd).
  rewrite copy_phase_run. cbv zeta.
  assert (Ht : chosen_target w1 target_dir f = chosen_target w target_dir f).
  { unfold chosen_target. by rewrite Hfs, Htk, Hck. }
  assert (He : copy2_error w1 f (chosen_target w target_dir f) = None).
  { unfold copy2_error in *. by rewrite Hfs, Hcf. }
  rewrite Ht, He, Hfs, Hsrc. eexists. split; [reflexivity|].
  simpl. by destruct (fs_exists _ _).
Qed.

(** C1. Content strategy end-to-end. Let the candidate be a document that
    python-docx reads ([paragraphs] are its paragraph texts). If its first
    non-empty trimmed paragraph starts with 投资建议, the classifier says
    investment advice ([should_copy] is [False]) and the pass leaves the file
    tree as it was, without any copy call. If that paragraph does not start
    with the marker, or the document has no non-empty paragraph, the
    classifier says not advice ([should_copy] is [True]) and, when
    [shutil.copy2] does not raise, a file holding the document is afterwards
    found below the destination directory. The third hypothesis says that
    the candidate has a file name, as every candidate of the script has. *)
Theorem content_strategy_end_to_end (lower : str -> str)
    (target_dir docx_file : Path) (paragraphs : list str)
    (n : nat) (w : World) :
  open_fault w docx_file = None ->
  fs w !! docx_file = Some (File (Docx paragraphs)) ->
  Path_name docx_file <> [] ->
  (forall first,
     first_nonempty_paragraph paragraphs = Some first ->
     marker `prefix_of` first ->
     exists w',
       decide_should_copy lower true docx_file w
       = (Ok false, record (EvDocument docx_file) w)
       /\ process_candidate lower true target_dir docx_file n w = (Ok n, w')
       /\ fs w' = fs w
       /\ trace w' = trace w ++ [EvDocument docx_file]
       /\ stdout w' = stdout w ++ [MsgSkipped (Path_name docx_file)])
  /\ ((first_nonempty_paragraph paragraphs = None
       \/ exists first,
            first_nonempty_paragraph paragraphs = Some first
            /\ ~ marker `prefix_of` first) ->
      decide_should_copy lower true docx_file w
      = (Ok true, record (EvDocument docx_file) w)
      /\ (copy2_error w docx_file (chosen_target w target_dir docx_file)
          = None ->
          exists w' dst,
            process_candidate lower true target_dir docx_file n w
            = (Ok (n + 1)%nat, w')
            /\ dst = copy2_dest (fs w) docx_file
                       (chosen_target w target_dir docx_file)
            /\ is_below target_dir dst = true
            /\ fs w' !! dst = Some (File (Docx paragraphs))
            /\ trace w'
               = trace w
                 ++ [EvDocument docx_file;
                     EvCopy2 docx_file
                       (chosen_target w target_dir docx_file) true]
            /\ stdout w' = stdout w ++ [MsgCopied (Path_name docx_file)])).
Proof.
  intros Hof Hsrc Hname.
  assert (Hdoc : Document_outcome w docx_file = Ok paragraphs)
    by (by apply Document_outcome_Ok).
  assert (Hrun := decide_should_copy_run lower true docx_file w).
  cbv iota in Hrun. rewrite Hdoc in Hrun. split.
  - intros first Hfirst Hpre. rewrite Hfirst in Hrun.
    change (default [] (Some first)) with first in Hrun.
    apply startswith_prefix_of in Hpre. rewrite Hpre in Hrun.
    eexists. split; [exact Hrun|].
    rewrite (process_candidate_after_decision _ _ _ _ _ _ _ _ Hrun).
    split; [reflexivity|]. done.
  - intros Hnot.
    assert (Hsw : startswith
                    (default [] (first_nonempty_paragraph paragraphs))
                    marker = false).
    { destruct Hnot as [->|(first & -> & Hnp)]; [done|].
      change (default [] (Some first)) with first.
      destruct (startswith first marker) eqn:Hs; [|done].
      by apply startswith_prefix_of in Hs. }
    rewrite Hsw in Hrun. split; [exact Hrun|]. intros Herr.
    destruct (process_candidate_copies lower true target_dir docx_file n w
                _ (Docx paragraphs) Hrun) as (w' & Hp & Hfs & Htr & Hout);
      try done.
    exists w', (copy2_dest (fs w) docx_file
                  (chosen_target w target_dir docx_file)).
    split; [exact Hp|]. split; [done|].
    split; [by apply copy_destination_below|].
    split; [rewrite Hfs; apply lookup_insert_eq|].
    split; [rewrite Htr; simpl; by rewrite <- app_assoc|done].
Qed.

(** The theorem at work: [a/report.docx] opens with a blank paragraph and
    then 市场观察, so it is copied to today's directory under its own name. *)
Lemma content_strategy_end_to_end_witness :
  exists w',
    process_candidate Examples.ascii_lower true Examples.today
      Examples.report_a 0 (Examples.quiet Examples.fs_reports_dest)
    = (Ok 1%nat, w')
    /\ fs w' !! (Examples.today ++ [lit "report.docx"])
       = Some (File Examples.observation_A).
Proof.
  destruct (content_strategy_end_to_end Examples.ascii_lower Examples.today
              Examples.report_a
              [lit " "; lit "市场观察：A"; lit "投资建议：买入"] 0%nat
              (Examples.quiet Examples.fs_reports_dest))
    as [_ Hcopy].
  - reflexivity.
  - vm_compute. reflexivity.
  - vm_compute. discriminate.
  - destruct Hcopy as [_ Hcopy].
    + right. exists (lit "市场观察：A"). split; [vm_compute; reflexivity|].
      intros Hp. apply startswith_prefix_of in Hp. vm_compute in Hp.
      discriminate.
    + destruct Hcopy as (w' & dst & Hrun & Hdst & _ & Hfile & _).
      * vm_compute. reflexivity.
      * exists w'. split; [exact Hrun|].
        assert (Heq : dst = Examples.today ++ [lit "report.docx"])
          by (rewrite Hdst; vm_compute; reflexivity).
        rewrite <- Heq. exact Hfile.
Defined.

Lemma first_nonempty_after_blanks (blanks later : list str)
    (first : str) :
  Forall (fun p => strip p = []) blanks ->
  strip first <> [] ->
  first_nonempty_paragraph (blanks ++ first :: later) = Some (strip first).
Proof.
  intros Hb Hf. induction Hb as [|p blanks Hp _ IH]; simpl.
  - by rewrite bool_decide_eq_false_2.
  - by rewrite bool_decide_eq_true_2.
Qed.

(** A readable document whose first paragraph lacks the marker is copied
    when [shutil.copy2] does not raise. *)
Lemma readable_not_advice_copied (lower : str -> str)
    (target_dir f : Path) (paragraphs : list str) (n : nat)
    (w : World) :
  Document_outcome w f = Ok paragraphs ->
  startswith (default [] (first_nonempty_paragraph paragraphs)) marker
  = false ->
  Path_name f <> [] ->
  copy2_error w f (chosen_target w target_dir f) = None ->
  exists w',
    process_candidate lower true target_dir f n w = (Ok (n + 1)%nat, w')
    /\ is_below target_dir
         (copy2_dest (fs w) f (chosen_target w target_dir f)) = true
    /\ fs w' !! copy2_dest (fs w) f (chosen_target w target_dir f)
       = Some (File (Docx paragraphs))
    /\ completed_copies (drop (length (trace w)) (trace w')) = 1%nat.
Proof.
  intros Hdoc Hsw Hname Herr.
  assert (Hrun := decide_should_copy_run lower true f w).
  cbv iota in Hrun. rewrite Hdoc, Hsw in Hrun.
  apply Document_outcome_Ok in Hdoc as [_ Hsrc].
  destruct (process_candidate_copies lower true target_dir f n w
              _ (Docx paragraphs) Hrun) as (w' & Hp & Hfs & Htr & Hout);
    try done.
  exists w'. split; [exact Hp|].
  split; [by apply copy_destination_below|].
  split; [rewrite Hfs; apply lookup_insert_eq|].
  rewrite Htr. simpl. rewrite <- app_assoc, drop_app_length. done.
Qed.

(** C10. Noninterference of the content strategy. Two documents that
    python-docx reads and whose first non-empty trimmed paragraphs are equal
    get the same classification, whatever their names, their other
    paragraphs, the rest of the world, or the lowercasing function. In
    particular a document whose first non-empty paragraph lacks the marker is
    copied (when [shutil.copy2] does not raise) whatever its later paragraphs
    say. *)
Theorem content_verdict_noninterference (lower1 lower2 : str -> str)
    (f1 f2 : Path) (doc1 doc2 : list str) (w1 w2 : World) :
  Document_outcome w1 f1 = Ok doc1 ->
  Document_outcome w2 f2 = Ok doc2 ->
  first_nonempty_paragraph doc1 = first_nonempty_paragraph doc2 ->
  fst (decide_should_copy lower1 true f1 w1)
  = fst (decide_should_copy lower2 true f2 w2)
  /\ (forall target_dir n blanks first later,
        doc1 = blanks ++ first :: later ->
        Forall (fun p => strip p = []) blanks ->
        strip first <> [] ->
        ~ marker `prefix_of` strip first ->
        Path_name f1 <> [] ->
        copy2_error w1 f1 (chosen_target w1 target_dir f1) = None ->
        fst (decide_should_copy lower1 true f1 w1) = Ok true
        /\ exists w',
             process_candidate lower1 true target_dir f1 n w1
             = (Ok (n + 1)%nat, w')
             /\ is_below target_dir
                  (copy2_dest (fs w1) f1 (chosen_target w1 target_dir f1))
                = true
             /\ fs w' !! copy2_dest (fs w1) f1
                           (chosen_target w1 target_dir f1)
                = Some (File (Docx doc1))).
Proof.
  intros Hd1 Hd2 Heq. split.
  - rewrite !decide_should_copy_run. cbv iota. by rewrite Hd1, Hd2, Heq.
  - intros target_dir n blanks first later Hdoc Hblank Hfirst Hnot Hname
      Herr.
    assert (Hsw : startswith (default [] (first_nonempty_paragraph doc1))
                    marker = false).
    { rewrite Hdoc, first_nonempty_after_blanks by done.
      change (default [] (Some (strip first))) with (strip first).
      destruct (startswith (strip first) marker) eqn:Hs; [|done].
      by apply startswith_prefix_of in Hs. }
    split.
    + rewrite decide_should_copy_run. cbv iota. by rewrite Hd1, Hsw.
    + destruct (readable_not_advice_copied lower1 target_dir f1 doc1 n w1)
        as (w' & Hp & Hb & Hl & _); try done.
      by exists w'.
Qed.

(** The theorem at work: the twins of the example tree classify alike,
    although one is named 投资建议.docx and has the marker in its second
    paragraph; that one is copied. *)
Lemma content_verdict_noninterference_witness :
  fst (decide_should_copy Examples.ascii_lower true Examples.twin_1
         (Examples.quiet Examples.fs_twins))
  = fst (decide_should_copy Examples.ascii_lower true Examples.twin_2
           (Examples.quiet Examples.fs_twins))
  /\ fst (decide_should_copy Examples.ascii_lower true Examples.twin_1
            (Examples.quiet Examples.fs_twins)) = Ok true.
Proof.
  destruct (content_verdict_noninterference Examples.ascii_lower
              Examples.ascii_lower Examples.twin_1 Examples.twin_2
              [lit "市场观察 "; lit "投资建议：卖出"]
              [lit ""; lit " 市场观察"; lit "附录"]
              (Examples.quiet Examples.fs_twins)
              (Examples.quiet Examples.fs_twins)) as [Hsame Hcopied].
  - vm_compute. reflexivity.
  - vm_compute. reflexivity.
  - vm_compute. reflexivity.
  - split; [exact Hsame|].
    destruct (Hcopied Examples.results 0%nat [] (lit "市场观察 ")
                [lit "投资建议：卖出"]) as [Hverdict _].
    + reflexivity.
    + constructor.
    + vm_compute. discriminate.
    + intros Hp. apply startswith_prefix_of in Hp. vm_compute in Hp.
      discriminate.
    + vm_compute. discriminate.
    + vm_compute. reflexivity.
    + exact Hverdict.
Defined.

(** ** Read failures *)

(** C3. Read-failure default. When python-docx cannot open or parse the
    candidate (it raises an [Exception]), [extract_first_paragraph] logs the
    failure for that file and returns the empty text, so the classification
    is not advice ([should_copy] stays [True]); the copy is then attempted,
    the pass over the candidate ends without raising, and the loop goes on
    with the remaining candidates. The third hypothesis excludes a user
    interrupt during the copy of this candidate. *)
Theorem read_failure_defaults_to_copy (lower : str -> str)
    (target_dir f : Path) (rest : list Path) (n : nat)
    (w : World) (e : exn) :
  Document_outcome w f = Raise e ->
  is_Exception e = true ->
  (forall dst e', copy_fault w f dst = Some e' -> is_Exception e' = true) ->
  extract_first_paragraph f w
  = (Ok [], emit (MsgUnreadable f e) (record (EvDocument f) w))
  /\ decide_should_copy lower true f w
     = (Ok true, emit (MsgUnreadable f e) (record (EvDocument f) w))
  /\ exists c w2 out tr,
       try_candidate lower true target_dir f n w = (Ok c, w2)
       /\ extends (emit (MsgUnreadable f e) (record (EvDocument f) w)) w2
            out tr
       /\ omap copy_source tr = [f]
       /\ process_candidates lower true target_dir (f :: rest) n w
          = process_candidates lower true target_dir rest c w2.
Proof.
  intros Hdoc HE Hcopy.
  assert (Hx : extract_first_paragraph f w
               = (Ok [], emit (MsgUnreadable f e) (record (EvDocument f) w))).
  { rewrite extract_first_paragraph_run, Hdoc. by rewrite HE. }
  assert (Hd : decide_should_copy lower true f w
               = (Ok true, emit (MsgUnreadable f e)
                             (record (EvDocument f) w))).
  { rewrite decide_should_copy_run. cbv iota. rewrite Hdoc. by rewrite HE. }
  split; [exact Hx|]. split; [exact Hd|].
  set (w1 := emit (MsgUnreadable f e) (record (EvDocument f) w)) in *.
  assert (Htry : exists c w2 out tr,
             try_candidate lower true target_dir f n w = (Ok c, w2)
             /\ extends w1 w2 out tr /\ omap copy_source tr = [f]).
  { unfold try_candidate, try_except_Exception.
    rewrite (process_candidate_after_decision _ _ _ _ _ _ _ _ Hd).
    rewrite copy_phase_run. cbv zeta.
    set (t := chosen_target w1 target_dir f).
    destruct (copy2_error w1 f t) as [e'|] eqn:Hce.
    - assert (HE' : is_Exception e' = true).
      { destruct (copy2_error_raises _ _ _ _ Hce) as [Hf|Hf]; [|done].
        by apply (Hcopy t). }
      rewrite HE'. unfold bind, print, ret.
      eexists _, _, [MsgFileError (Path_name f) e'], [EvCopy2 f t false].
      split; [reflexivity|].
      split; [|done]. destruct (fs_exists _ _); split; done.
    - eexists _, _, [MsgCopied (Path_name f)], [EvCopy2 f t true].
      split; [reflexivity|].
      split; [|done]. destruct (fs_exists _ _); split; done. }
  destruct Htry as (c & w2 & out & tr & Htry & Hext & Hsrc).
  exists c, w2, out, tr.
  split; [exact Htry|]. split; [exact Hext|]. split; [exact Hsrc|].
  cbn [process_candidates]. unfold bind. by rewrite Htry.
Qed.

(** The theorem at work: [b/broken.docx] of the example tree is not a
    document; it is reported unreadable and copied. *)
Lemma read_failure_defaults_to_copy_witness :
  decide_should_copy Examples.ascii_lower true Examples.broken_b
    (Examples.quiet Examples.fs_reports_dest)
  = (Ok true,
     emit (MsgUnreadable Examples.broken_b (Exception "PackageNotFoundError"))
       (record (EvDocument Examples.broken_b)
          (Examples.quiet Examples.fs_reports_dest))).
Proof.
  destruct (read_failure_defaults_to_copy Examples.ascii_lower Examples.today
              Examples.broken_b [Examples.advice_b] 0%nat
              (Examples.quiet Examples.fs_reports_dest)
              (Exception "PackageNotFoundError")) as (_ & Hd & _).
  - vm_compute. reflexivity.
  - reflexivity.
  - intros dst e' Hf. vm_compute in Hf. discriminate.
  - exact Hd.
Defined.

(** ** Directories *)

Lemma make_dirs_lookup (f : gmap Path node)
    (p q : Path) :
  make_dirs f p !! q
  = if bool_decide (q ∈ ancestors_and_self p) then Some Dir else f !! q.
Proof.
  unfold make_dirs.
  induction (ancestors_and_self p) as [|a l IH]; cbn [foldr].
  - rewrite bool_decide_eq_false_2; [done | apply not_elem_of_nil].
  - rewrite lookup_insert. destruct (decide (a = q)) as [->|Hne].
    + rewrite bool_decide_eq_true_2; [done | apply list_elem_of_here].
    + rewrite IH. destruct (bool_decide (q ∈ l)) eqn:Hq.
      * apply bool_decide_eq_true in Hq.
        rewrite bool_decide_eq_true_2; [done|by apply list_elem_of_further].
      * apply bool_decide_eq_false in Hq.
        rewrite bool_decide_eq_false_2; [done|].
        intros [->|Hin]%elem_of_cons; done.
Qed.

Lemma mkdir_blocked_false (f : gmap Path node)
    (p q : Path) :
  mkdir_blocked f p = false -> q ∈ ancestors_and_self p ->
  is_file f q = false.
Proof.
  unfold mkdir_blocked. intros Hb Hq.
  destruct (is_file f q) eqn:Hf; [|done].
  rewrite <- Hb. symmetry. apply existsb_exists. exists q.
  split; [by apply list_elem_of_In|done].
Qed.

(** Creating directories neither adds, removes nor changes a regular
    file. *)
Lemma make_dirs_keeps_files (f : gmap Path node)
    (p q : Path) (c : content) :
  mkdir_blocked f p = false ->
  (make_dirs f p !! q = Some (File c) <-> f !! q = Some (File c)).
Proof.
  intros Hb. rewrite make_dirs_lookup.
  destruct (bool_decide (q ∈ ancestors_and_self p)) eqn:Hq; [|done].
  apply bool_decide_eq_true in Hq.
  assert (Hf := mkdir_blocked_false f p q Hb Hq). unfold is_file in Hf.
  split; [done|]. intros H. by rewrite H in Hf.
Qed.

(** ** The entry point *)

Lemma after_opening_extends (DOCX_AVAILABLE : bool) (w : World) :
  extends w (after_opening DOCX_AVAILABLE w) (opening_lines DOCX_AVAILABLE)
    []
  /\ fs (after_opening DOCX_AVAILABLE w) = fs w
  /\ ticks (after_opening DOCX_AVAILABLE w) = ticks w.
Proof.
  destruct DOCX_AVAILABLE; (split; [split|]); simpl;
    rewrite <- ?app_assoc, ?app_nil_r; done.
Qed.

Lemma run_script_run (lower : str -> str) (DOCX_AVAILABLE : bool)
    (project_root : Path) (sys_argv : list Path)
    (w : World) :
  run_script lower DOCX_AVAILABLE project_root sys_argv w =
  match
    match sys_argv with
    | _ :: file_path :: _ =>
      if fs_exists (fs w) file_path
         && bool_decide (lower (Path_suffix file_path) = lit ".docx")
      then copy_non_investment_docx_files lower DOCX_AVAILABLE project_root
             (Some file_path) (after_opening DOCX_AVAILABLE w)
      else (Ok tt,
            emit (MsgInvalidPath file_path)
              (after_opening DOCX_AVAILABLE w))
    | _ => copy_non_investment_docx_files lower DOCX_AVAILABLE project_root
             None (after_opening DOCX_AVAILABLE w)
    end
  with
  | (Ok _, w') => (0, w')
  | (Raise KeyboardInterrupt, w') => (1, emit MsgInterrupted w')
  | (Raise (Exception s), w') => (1, emit (MsgUnexpected (Exception s)) w')
  | (Raise (SystemExit code), w') => (code, w')
  end.
Proof.
  unfold run_script, main, try_except_main, bind, print, ret, sys_exit,
    raise, Path_exists, after_opening, opening_lines.
  destruct DOCX_AVAILABLE; simpl.
  all: destruct sys_argv as [|a [|file_path more]]; simpl.
  all: repeat match goal with
       | |- context [if ?b then _ else _] => destruct b
       | |- context [copy_non_investment_docx_files ?l ?d ?r ?s ?w] =>
         destruct (copy_non_investment_docx_files l d r s w) as [[?|[]] ?]
       end; reflexivity.
Qed.

(** C6. Invalid single-file argument. When the first command-line argument
    names a path that does not exist, or whose suffix does not lowercase to
    ".docx", the script prints the opening lines and the invalid-path
    message and nothing else, and the process ends with status 0: the file
    tree is unchanged (no directory is created, nothing is copied), the
    clock is not read and the environment is not called at all. *)
Theorem invalid_single_file_argument (lower : str -> str)
    (DOCX_AVAILABLE : bool) (project_root script file_path : Path)
    (more : list Path) (w : World) :
  fs_exists (fs w) file_path = false
  \/ lower (Path_suffix file_path) <> lit ".docx" ->
  exists w',
    run_script lower DOCX_AVAILABLE project_root
      (script :: file_path :: more) w = (0, w')
    /\ stdout w'
       = stdout w ++ opening_lines DOCX_AVAILABLE
         ++ [MsgInvalidPath file_path]
    /\ fs w' = fs w
    /\ trace w' = trace w
    /\ ticks w' = ticks w.
Proof.
  intros Hbad. rewrite run_script_run.
  assert (Hc : fs_exists (fs w) file_path
               && bool_decide (lower (Path_suffix file_path) = lit ".docx")
               = false).
  { destruct Hbad as [->|Hne]; [done|].
    rewrite (bool_decide_eq_false_2 _ Hne). apply andb_false_r. }
  rewrite Hc. eexists. split; [reflexivity|].
  destruct (after_opening_extends DOCX_AVAILABLE w) as ([] & Hfs & Htk).
  simpl. rewrite ext_stdout0, ext_trace0, app_nil_r, <- app_assoc. done.
Qed.

(** The theorem at work: a [.txt] path, on a machine where it does not even
    exist. *)
Lemma invalid_single_file_argument_witness :
  exists w',
    run_script Examples.ascii_lower true Examples.proj
      [Examples.script; Examples.memo_txt] Examples.nowhere = (0, w')
    /\ stdout w' = [MsgBanner; MsgInvalidPath Examples.memo_txt]
    /\ fs w' = ∅.
Proof.
  destruct (invalid_single_file_argument Examples.ascii_lower true
              Examples.proj Examples.script Examples.memo_txt []
              Examples.nowhere) as (w' & Hrun & Hout & Hfs & _).
  - left. reflexivity.
  - exists w'. split; [exact Hrun|]. split; [exact Hout|exact Hfs].
Defined.

Lemma directory_mode_run (lower : str -> str) (DOCX_AVAILABLE : bool)
    (project_root : Path) (w : World) :
  copy_non_investment_docx_files lower DOCX_AVAILABLE project_root None w =
  if mkdir_blocked (fs w) (target_dir_at w)
  then (Raise (Exception "FileExistsError"), tick w)
  else
    let w1 := emit (MsgTargetDir (target_dir_at w))
                (record (EvMkdir (target_dir_at w))
                   (set_fs (make_dirs (fs w) (target_dir_at w)) (tick w))) in
    if fs_exists (fs w1) (source_dir_of project_root)
    then classify_and_copy lower DOCX_AVAILABLE (target_dir_at w)
           (candidates_at project_root w1)
           (emit (MsgFound (length (candidates_at project_root w1))) w1)
    else (Ok tt, emit (MsgSourceMissing (source_dir_of project_root)) w1).
Proof.
  unfold copy_non_investment_docx_files, bind, datetime_now,
    Path_mkdir_parents_exist_ok, print, Path_exists, Path_rglob_docx.
  change (fs (tick w)) with (fs w).
  change (joinpath target_base_dir (strftime_Ymd (clock w (ticks w))))
    with (target_dir_at w).
  destruct (mkdir_blocked (fs w) (target_dir_at w)); [done|].
  cbv zeta. unfold source_dir_of.
  destruct (fs_exists _ (joinpath project_root (lit "results"))); done.
Qed.

Lemma target_dir_at_after_opening (DOCX_AVAILABLE : bool) (w : World) :
  target_dir_at (after_opening DOCX_AVAILABLE w) = target_dir_at w.
Proof. by destruct DOCX_AVAILABLE. Qed.

Lemma no_argument_cases (sys_argv : list Path) :
  (length sys_argv <= 1)%nat ->
  sys_argv = [] \/ exists a, sys_argv = [a].
Proof.
  destruct sys_argv as [|a [|b l]]; simpl; [by left|right; by exists a|lia].
Qed.

(** C4, as the code has it. Missing source directory: when the script runs
    with no argument and the source directory [project_root/results] does
    not exist (and does not lie on the way to the destination directory,
    whose creation would bring it into being), the run first creates the
    destination directory, then prints the source-missing message and
    returns: the process ends with status 0, no file is opened or copied,
    and every regular file is as it was. The last hypothesis says that the
    destination directory can be created. *)
Theorem missing_source_directory_run (lower : str -> str)
    (DOCX_AVAILABLE : bool) (project_root : Path)
    (sys_argv : list Path) (w : World) :
  (length sys_argv <= 1)%nat ->
  fs_exists (fs w) (source_dir_of project_root) = false ->
  source_dir_of project_root ∉ ancestors_and_self (target_dir_at w) ->
  mkdir_blocked (fs w) (target_dir_at w) = false ->
  exists w',
    run_script lower DOCX_AVAILABLE project_root sys_argv w = (0, w')
    /\ stdout w'
       = stdout w ++ opening_lines DOCX_AVAILABLE
         ++ [MsgTargetDir (target_dir_at w);
             MsgSourceMissing (source_dir_of project_root)]
    /\ fs w' = make_dirs (fs w) (target_dir_at w)
    /\ trace w' = trace w ++ [EvMkdir (target_dir_at w)]
    /\ (forall p c, fs w' !! p = Some (File c) <-> fs w !! p = Some (File c)).
Proof.
  intros Hargs Hmissing Hway Hmk.
  destruct (after_opening_extends DOCX_AVAILABLE w) as ([] & Hfs & Htk).
  assert (Hrun : copy_non_investment_docx_files lower DOCX_AVAILABLE
                   project_root None (after_opening DOCX_AVAILABLE w)
                 = (Ok tt,
                    emit (MsgSourceMissing (source_dir_of project_root))
                      (emit (MsgTargetDir (target_dir_at w))
                         (record (EvMkdir (target_dir_at w))
                            (set_fs (make_dirs (fs w) (target_dir_at w))
                               (tick (after_opening DOCX_AVAILABLE w))))))).
  { rewrite directory_mode_run, target_dir_at_after_opening, Hfs, Hmk.
    cbv zeta. cbn [fs emit record set_fs].
    assert (Hs : fs_exists (make_dirs (fs w) (target_dir_at w))
                   (source_dir_of project_root) = false).
    { unfold fs_exists in *.
      destruct (source_dir_of project_root) as [|x sd] eqn:Hsd; [done|].
      rewrite make_dirs_lookup, bool_decide_eq_false_2 by done. done. }
    by rewrite Hs. }
  eexists. split.
  - rewrite run_script_run.
    destruct (no_argument_cases _ Hargs) as [->|[a ->]]; by rewrite Hrun.
  - cbn [stdout fs trace emit record set_fs tick].
    rewrite ext_stdout0, ext_trace0, app_nil_r, <- !app_assoc.
    repeat split; try done.
    all: by apply make_dirs_keeps_files.
Qed.

(** The theorem at work, on the empty machine. *)
Lemma missing_source_directory_run_witness :
  exists w',
    run_script Examples.ascii_lower true Examples.proj [Examples.script]
      Examples.nowhere = (0, w')
    /\ trace w' = [EvMkdir Examples.today].
Proof.
  destruct (missing_source_directory_run Examples.ascii_lower true
              Examples.proj [Examples.script] Examples.nowhere)
    as (w' & Hrun & _ & _ & Htr & _).
  - simpl. lia.
  - reflexivity.
  - vm_compute. intros H. repeat (apply elem_of_cons in H as [H|H];
      [discriminate|]). by apply not_elem_of_nil in H.
  - vm_compute. reflexivity.
  - exists w'. split; [exact Hrun|exact Htr].
Defined.

(** C4, as the specification states it, fails: on the empty machine the
    source directory is missing, yet the process ends with status 0 and the
    destination directory has come into being. *)
Lemma missing_source_directory_counterexample :
  fs_exists (fs Examples.nowhere) (source_dir_of Examples.proj) = false
  /\ fst (run_script Examples.ascii_lower true Examples.proj
            [Examples.script] Examples.nowhere) = 0
  /\ fs Examples.nowhere !! Examples.today = None
  /\ fs (snd (run_script Examples.ascii_lower true Examples.proj
                [Examples.script] Examples.nowhere)) !! Examples.today
     = Some Dir.
Proof. vm_compute. repeat split. Qed.

(** ** Error isolation and the counter *)



(** C9. The counter. A run over the candidates starts the counter at 0 and
    ends in one of two ways. Either it returns: then its last line reports
    a count equal to the number of [shutil.copy2] calls that completed
    during the run, which is also the number of copied lines; that line is
    the only report; and copied, skipped and error lines together are as
    many as the candidates, so a skipped or failed candidate adds nothing to
    the count. Or it raises something that is not an [Exception], and
    reports no count. When no open or copy is interrupted, it returns. *)
Theorem copied_count_invariant (lower : str -> str)
    (DOCX_AVAILABLE : bool) (target_dir : Path)
    (files : list Path) (w : World) :
  (exists r w' out tr,
     classify_and_copy lower DOCX_AVAILABLE target_dir files w = (r, w')
     /\ extends w w' out tr
     /\ count_lines is_copied_line out = completed_copies tr
     /\ match r with
        | Ok _ =>
          last out = Some (MsgDone (completed_copies tr) target_dir)
          /\ count_lines is_done_line out = 1%nat
          /\ (completed_copies tr
              + count_lines is_skipped_line out
              + count_lines is_error_line out = length files)%nat
        | Raise e =>
          is_Exception e = false
          /\ count_lines is_done_line out = 0%nat
        end)
  /\ (only_Exceptions w files ->
      exists w',
        classify_and_copy lower DOCX_AVAILABLE target_dir files w
        = (Ok tt, w')).
Proof.
  unfold classify_and_copy.
  set (w0 := if DOCX_AVAILABLE then w else emit MsgFilenameMode w).
  set (o0 := if DOCX_AVAILABLE then [] else [MsgFilenameMode]).
  assert (Hw0 : extends w w0 o0 []).
  { subst w0 o0. destruct DOCX_AVAILABLE;
      [apply extends_refl | apply extends_emit]. }
  assert (Ho0 : count_lines is_copied_line o0 = 0%nat
                /\ count_lines is_done_line o0 = 0%nat
                /\ count_lines is_skipped_line o0 = 0%nat
                /\ count_lines is_error_line o0 = 0%nat)
    by (subst o0; by destruct DOCX_AVAILABLE).
  destruct Ho0 as (Hc0 & Hd0 & Hs0 & He0).
  assert (Hstart : forall k : unit -> M unit,
             ((if DOCX_AVAILABLE then ret tt else print MsgFilenameMode)
              ;;; k tt) w = k tt w0).
  { intros k. subst w0. by destruct DOCX_AVAILABLE. }
  rewrite (Hstart (fun _ =>
             copied_count <- process_candidates lower DOCX_AVAILABLE
                               target_dir files 0 ;;
             print (MsgDone copied_count target_dir))).
  unfold bind.
  destruct (process_candidates_run lower DOCX_AVAILABLE target_dir files
              0 w0)
    as (r & w' & out & tr & Hrun & Hext & _ & Hdone & Hcop & _ & Hr).
  rewrite Hrun. split.
  - destruct r as [c|e].
    + destruct Hr as (_ & _ & -> & Hsum). simpl in *.
      eexists _, _, (o0 ++ out ++ [MsgDone (completed_copies tr) target_dir]),
        tr.
      split; [reflexivity|]. split.
      { change tr with ([] ++ tr). eapply extends_trans; [exact Hw0|].
        rewrite <- (app_nil_r tr). eapply extends_trans; [exact Hext|].
        apply extends_emit. }
      rewrite !count_lines_app, Hc0, Hd0, Hs0, He0, Hdone, Hcop.
      cbn. rewrite !app_assoc, last_snoc. repeat split; lia.
    + destruct Hr as (HE & _).
      eexists _, _, (o0 ++ out), tr. split; [reflexivity|]. split.
      { change tr with ([] ++ tr). by eapply extends_trans. }
      rewrite !count_lines_app, Hc0, Hd0, Hdone, Hcop. done.
  - intros Hno.
    assert (Hno0 : only_Exceptions w0 files).
    { intros p Hp. destruct (Hno p Hp) as [H1 H2].
      rewrite (ext_open_fault _ _ _ _ Hw0), (ext_copy_fault _ _ _ _ Hw0).
      done. }
    destruct (process_candidates_completes lower DOCX_AVAILABLE target_dir
                files 0 w0 Hno0) as (c & w2 & Hrun2).
    rewrite Hrun in Hrun2. injection Hrun2 as -> ->.
    eexists. reflexivity.
Qed.

(** The theorem at work: of four candidates one is refused by the machine
    and one is advice; the report says 2. *)
Lemma copied_count_invariant_witness :
  exists w',
    classify_and_copy Examples.ascii_lower true Examples.today
      Examples.four_candidates Examples.refusing = (Ok tt, w')
    /\ last (stdout w') = Some (MsgDone 2 Examples.today).
Proof.
  destruct (copied_count_invariant Examples.ascii_lower true Examples.today
              Examples.four_candidates Examples.refusing)
    as [_ Hreturns].
  destruct Hreturns as (w' & Hrun).
  - intros p _. split.
    + intros e He. discriminate He.
    + intros dst e He.
      change (copy_fault Examples.refusing p dst)
        with (if bool_decide (p = Examples.report_a)
              then Some (Exception "PermissionError") else None) in He.
      destruct (bool_decide (p = Examples.report_a)); [|discriminate].
      by injection He as <-.
  - exists w'. split; [exact Hrun|].
    assert (Hl : last (stdout (snd (classify_and_copy Examples.ascii_lower
                                      true Examples.today
                                      Examples.four_candidates
                                      Examples.refusing)))
                 = Some (MsgDone 2 Examples.today))
      by (vm_compute; reflexivity).
    rewrite Hrun in Hl. exact Hl.
Defined.

(** ** Runs that skip everything *)

Lemma elem_of_candidates_at (project_root : Path) (w : World)
    (p : Path) :
  p ∈ candidates_at project_root w
  <-> is_Some (fs w !! p)
      /\ is_below (source_dir_of project_root) p = true
      /\ endswith (Path_name p) docx_pattern = true.
Proof.
  unfold candidates_at, source_dir_of.
  rewrite list_elem_of_In, filter_In, in_map_iff, andb_true_iff. split.
  - intros [([q nd] & Hq & Hin) Hc]. simpl in Hq. subst q.
    apply list_elem_of_In, elem_of_map_to_list in Hin.
    split; [by exists nd | done].
  - intros ([nd Hnd] & Hb & He). split; [|done].
    exists (p, nd). split; [done|].
    by apply list_elem_of_In, elem_of_map_to_list.
Qed.

Lemma digit_is_not_x (n : N) : digit n <> 120.
Proof.
  unfold digit. assert (n mod 10 < 10) by (apply N.mod_lt; lia). lia.
Qed.

Lemma date_is_not_docx (t : datetime) :
  endswith (strftime_Ymd t) docx_pattern = false.
Proof.
  replace docx_pattern with [46; 100; 111; 99; 120] by reflexivity.
  unfold endswith, strftime_Ymd, pad4, pad2. cbn [app rev startswith].
  rewrite bool_decide_eq_false_2; [done | apply digit_is_not_x].
Qed.

Lemma target_dir_ancestors (t : datetime) :
  ancestors_and_self (joinpath target_base_dir (strftime_Ymd t))
  = [ [lit "Users"];
      [lit "Users"; lit "liuqun"];
      [lit "Users"; lit "liuqun"; lit "TradingAgents-CN"];
      target_base_dir;
      target_base_dir ++ [strftime_Ymd t] ].
Proof. reflexivity. Qed.

(** No directory that the creation of a destination directory brings into
    being is a candidate. *)
Lemma target_dir_ancestor_not_docx (w : World) (q : Path) :
  q ∈ ancestors_and_self (target_dir_at w) ->
  endswith (Path_name q) docx_pattern = false.
Proof.
  unfold target_dir_at. rewrite target_dir_ancestors. intros Hq.
  repeat (apply elem_of_cons in Hq as [->|Hq]; [by vm_compute|]).
  apply elem_of_cons in Hq as [->|Hq].
  - unfold Path_name. rewrite last_snoc. apply date_is_not_docx.
  - by apply not_elem_of_nil in Hq.
Qed.

Lemma classifies_as_advice_stable (lower : str -> str)
    (DOCX_AVAILABLE : bool) (w w' : World) (p : Path) :
  open_fault w' = open_fault w ->
  (forall c, fs w !! p = Some (File c) -> fs w' !! p = Some (File c)) ->
  classifies_as_advice lower DOCX_AVAILABLE w p ->
  classifies_as_advice lower DOCX_AVAILABLE w' p.
Proof.
  unfold classifies_as_advice. intros Hof Hfs.
  destruct DOCX_AVAILABLE; [|done].
  intros (Hnone & ps & first & Hp & Hfirst & Hm).
  split; [by rewrite Hof|]. exists ps, first. auto.
Qed.

Lemma advice_is_skipped (lower : str -> str) (DOCX_AVAILABLE : bool)
    (target_dir f : Path) (n : nat) (w : World) :
  classifies_as_advice lower DOCX_AVAILABLE w f ->
  try_candidate lower DOCX_AVAILABLE target_dir f n w
  = (Ok n,
     emit (MsgSkipped (Path_name f))
       (if DOCX_AVAILABLE then record (EvDocument f) w else w)).
Proof.
  intros Hadv.
  assert (Hd : decide_should_copy lower DOCX_AVAILABLE f w
               = (Ok false,
                  if DOCX_AVAILABLE then record (EvDocument f) w else w)).
  { rewrite decide_should_copy_run. unfold classifies_as_advice in Hadv.
    destruct DOCX_AVAILABLE.
    - destruct Hadv as (Hnone & ps & first & Hp & Hfirst & Hm).
      rewrite (proj2 (Document_outcome_Ok f w ps) (conj Hnone Hp)), Hfirst.
      change (default [] (Some first)) with first.
      apply startswith_prefix_of in Hm. by rewrite Hm.
    - by rewrite Hadv. }
  unfold try_candidate, try_except_Exception.
  by rewrite (process_candidate_after_decision _ _ _ _ _ _ _ _ Hd).
Qed.

Lemma all_advice_skipped (lower : str -> str) (DOCX_AVAILABLE : bool)
    (target_dir : Path) (files : list Path) (n : nat)
    (w : World) :
  (forall p, p ∈ files -> classifies_as_advice lower DOCX_AVAILABLE w p) ->
  exists w' out tr,
    process_candidates lower DOCX_AVAILABLE target_dir files n w = (Ok n, w')
    /\ extends w w' out tr
    /\ fs w' = fs w /\ ticks w' = ticks w
    /\ omap copy_source tr = [].
Proof.
  revert w. induction files as [|f rest IH]; intros w Hall.
  - exists w, [], []. split; [done|]. split; [apply extends_refl|done].
  - cbn [process_candidates]. unfold bind.
    rewrite advice_is_skipped by (apply Hall, list_elem_of_here).
    set (w1 := emit (MsgSkipped (Path_name f))
                 (if DOCX_AVAILABLE then record (EvDocument f) w else w)).
    assert (Hext1 : extends w w1 [MsgSkipped (Path_name f)]
                      (if DOCX_AVAILABLE then [EvDocument f] else [])).
    { subst w1. destruct DOCX_AVAILABLE; split; simpl;
        rewrite ?app_nil_r; done. }
    assert (Hfs1 : fs w1 = fs w) by (subst w1; by destruct DOCX_AVAILABLE).
    assert (Htk1 : ticks w1 = ticks w)
      by (subst w1; by destruct DOCX_AVAILABLE).
    destruct (IH w1) as (w' & out & tr & Hrun & Hext & Hfs & Htk & Hcs).
    { intros p Hp.
      apply (classifies_as_advice_stable lower DOCX_AVAILABLE w w1).
      - apply (ext_open_fault _ _ _ _ Hext1).
      - intros c. by rewrite Hfs1.
      - by apply Hall, list_elem_of_further. }
    exists w', ([MsgSkipped (Path_name f)] ++ out),
      ((if DOCX_AVAILABLE then [EvDocument f] else []) ++ tr).
    split; [exact Hrun|]. split; [by eapply extends_trans|].
    split; [congruence|]. split; [congruence|].
    rewrite omap_app, Hcs. by destruct DOCX_AVAILABLE.
Qed.

Lemma make_dirs_keeps_existing (f : gmap Path node)
    (p q : Path) :
  fs_exists f q = true -> fs_exists (make_dirs f p) q = true.
Proof.
  destruct q as [|x q]; [done|]. unfold fs_exists.
  rewrite make_dirs_lookup. by destruct (bool_decide _).
Qed.

Lemma candidates_after_mkdir (project_root : Path) (w w' : World)
    (t : World) (p : Path) :
  fs w' = make_dirs (fs w) (target_dir_at t) ->
  p ∈ candidates_at project_root w' -> p ∈ candidates_at project_root w.
Proof.
  intros Hfs. rewrite !elem_of_candidates_at, Hfs, make_dirs_lookup.
  intros (Hsome & Hb & He). split; [|done].
  destruct (bool_decide (p ∈ ancestors_and_self (target_dir_at t))) eqn:Hp;
    [|done].
  apply bool_decide_eq_true in Hp.
  apply target_dir_ancestor_not_docx in Hp. congruence.
Qed.

(** A directory-mode run in which every candidate is investment advice. *)
Lemma all_advice_run (lower : str -> str) (DOCX_AVAILABLE : bool)
    (project_root : Path) (sys_argv : list Path)
    (w : World) :
  (length sys_argv <= 1)%nat ->
  fs_exists (fs w) (source_dir_of project_root) = true ->
  mkdir_blocked (fs w) (target_dir_at w) = false ->
  (forall p, p ∈ candidates_at project_root w ->
             classifies_as_advice lower DOCX_AVAILABLE w p) ->
  exists w' out tr,
    run_script lower DOCX_AVAILABLE project_root sys_argv w = (0, w')
    /\ extends w w' out tr
    /\ last out = Some (MsgDone 0 (target_dir_at w))
    /\ omap copy_source tr = []
    /\ fs w' = make_dirs (fs w) (target_dir_at w)
    /\ ticks w' = S (ticks w).
Proof.
  intros Hargs Hsrc Hmk Hall.
  destruct (after_opening_extends DOCX_AVAILABLE w) as (Hext0 & Hfs0 & Htk0).
  set (w0 := after_opening DOCX_AVAILABLE w) in *.
  set (td := target_dir_at w) in *.
  set (w1 := emit (MsgTargetDir td)
               (record (EvMkdir td)
                  (set_fs (make_dirs (fs w0) td) (tick w0)))).
  set (files := candidates_at project_root w1).
  set (w2 := emit (MsgFound (length files)) w1).
  set (o3 := if DOCX_AVAILABLE then [] else [MsgFilenameMode]).
  set (w3 := if DOCX_AVAILABLE then w2 else emit MsgFilenameMode w2).
  assert (Hext3 : extends w0 w3
                    ([MsgTargetDir td; MsgFound (length files)] ++ o3)
                    [EvMkdir td]).
  { subst w3 o3. destruct DOCX_AVAILABLE; split; simpl;
      rewrite <- ?app_assoc; done. }
  assert (Hfs3 : fs w3 = make_dirs (fs w) td).
  { subst w3. rewrite <- Hfs0. by destruct DOCX_AVAILABLE. }
  assert (Htk3 : ticks w3 = S (ticks w)).
  { subst w3. rewrite <- Htk0. by destruct DOCX_AVAILABLE. }
  assert (Hall3 : forall p, p ∈ files ->
                    classifies_as_advice lower DOCX_AVAILABLE w3 p).
  { intros p Hp.
    apply (classifies_as_advice_stable lower DOCX_AVAILABLE w w3).
    - rewrite (ext_open_fault _ _ _ _ Hext3).
      apply (ext_open_fault _ _ _ _ Hext0).
    - intros c Hc. rewrite Hfs3. by apply make_dirs_keeps_files.
    - apply Hall.
      apply (candidates_after_mkdir project_root w w1 w); [|exact Hp].
      subst w1. cbn [fs emit record set_fs]. by rewrite Hfs0. }
  destruct (all_advice_skipped lower DOCX_AVAILABLE td files 0 w3 Hall3)
    as (w4 & out & tr & Hrun & Hext4 & Hfs4 & Htk4 & Hcs).
  assert (Hmode : copy_non_investment_docx_files lower DOCX_AVAILABLE
                    project_root None w0
                  = (Ok tt, emit (MsgDone 0 td) w4)).
  { rewrite directory_mode_run.
    assert (Htd : target_dir_at w0 = td)
      by apply target_dir_at_after_opening.
    rewrite !Htd, Hfs0, Hmk. cbv zeta. rewrite <- Hfs0. fold w1.
    assert (Hs : fs_exists (fs w1) (source_dir_of project_root) = true).
    { subst w1. cbn [fs emit record set_fs]. rewrite Hfs0.
      by apply make_dirs_keeps_existing. }
    rewrite Hs. fold files. fold w2.
    unfold classify_and_copy.
    assert (Hstart : forall k : unit -> M unit,
               ((if DOCX_AVAILABLE then ret tt else print MsgFilenameMode)
                ;;; k tt) w2 = k tt w3).
    { intros k. subst w3. by destruct DOCX_AVAILABLE. }
    rewrite (Hstart (fun _ =>
               copied_count <- process_candidates lower DOCX_AVAILABLE td
                                 files 0 ;;
               print (MsgDone copied_count td))).
    unfold bind. by rewrite Hrun. }
  exists (emit (MsgDone 0 td) w4),
    ((opening_lines DOCX_AVAILABLE
      ++ (([MsgTargetDir td; MsgFound (length files)] ++ o3) ++ out))
     ++ [MsgDone 0 td]),
    (([] ++ ([EvMkdir td] ++ tr)) ++ []).
  split.
  { rewrite run_script_run. fold w0.
    destruct (no_argument_cases _ Hargs) as [->|[a ->]]; by rewrite Hmode. }
  split.
  { eapply extends_trans; [|apply extends_emit].
    eapply extends_trans; [exact Hext0|].
    eapply extends_trans; [exact Hext3|exact Hext4]. }
  split; [by rewrite last_snoc|].
  split; [simpl; by rewrite app_nil_r|].
  split; [simpl; congruence|simpl; congruence].
Qed.

Lemma make_dirs_keeps_blocked (f : gmap Path node)
    (p q : Path) :
  mkdir_blocked f p = false ->
  mkdir_blocked (make_dirs f p) q = mkdir_blocked f q.
Proof.
  intros Hb. unfold mkdir_blocked.
  induction (ancestors_and_self q) as [|a l IH]; [done|].
  cbn [existsb]. rewrite IH. f_equal. unfold is_file.
  destruct (make_dirs f p !! a) as [[|c]|] eqn:Hm.
  - rewrite make_dirs_lookup in Hm.
    destruct (bool_decide (a ∈ ancestors_and_self p)) eqn:Ha.
    + apply bool_decide_eq_true in Ha.
      assert (Hf := mkdir_blocked_false f p a Hb Ha). unfold is_file in Hf.
      by destruct (f !! a) as [[|]|].
    + by rewrite Hm.
  - apply (make_dirs_keeps_files f p a c Hb) in Hm. by rewrite Hm.
  - rewrite make_dirs_lookup in Hm.
    destruct (bool_decide (a ∈ ancestors_and_self p)); [done|].
    by rewrite Hm.
Qed.

(** C8. Idempotence of skip. Take a machine on which the source directory
    exists, the destination directory can be created today and at the date
    of the next clock reading, and every candidate of the source tree
    classifies as investment advice under the strategy in force. Then a
    directory-mode run ends with status 0 and reports 0 copied files, and
    so does a second run started where the first one ended. Neither run
    attempts a copy, and after each of them every path holds a regular file
    exactly when it did before, with the same content: no file has been
    placed in the destination directory. *)
Theorem skipping_is_idempotent (lower : str -> str)
    (DOCX_AVAILABLE : bool) (project_root : Path)
    (sys_argv : list Path) (w : World) :
  (length sys_argv <= 1)%nat ->
  fs_exists (fs w) (source_dir_of project_root) = true ->
  mkdir_blocked (fs w) (target_dir_at w) = false ->
  mkdir_blocked (fs w) (target_dir_at (tick w)) = false ->
  (forall p, p ∈ candidates_at project_root w ->
             classifies_as_advice lower DOCX_AVAILABLE w p) ->
  exists w1 w2 out1 out2 tr1 tr2,
    run_script lower DOCX_AVAILABLE project_root sys_argv w = (0, w1)
    /\ run_script lower DOCX_AVAILABLE project_root sys_argv w1 = (0, w2)
    /\ extends w w1 out1 tr1
    /\ extends w1 w2 out2 tr2
    /\ last out1 = Some (MsgDone 0 (target_dir_at w))
    /\ last out2 = Some (MsgDone 0 (target_dir_at (tick w)))
    /\ omap copy_source tr1 = []
    /\ omap copy_source tr2 = []
    /\ (forall p c, fs w1 !! p = Some (File c) <-> fs w !! p = Some (File c))
    /\ (forall p c, fs w2 !! p = Some (File c) <-> fs w !! p = Some (File c)).
Proof.
  intros Hargs Hsrc Hmk1 Hmk2 Hall.
  destruct (all_advice_run lower DOCX_AVAILABLE project_root sys_argv w)
    as (w1 & out1 & tr1 & Hrun1 & Hext1 & Hlast1 & Hcs1 & Hfs1 & Htk1);
    try done.
  assert (Htd : target_dir_at w1 = target_dir_at (tick w)).
  { unfold target_dir_at. rewrite (ext_clock _ _ _ _ Hext1), Htk1. done. }
  assert (Hkeep1 : forall p c,
             fs w1 !! p = Some (File c) <-> fs w !! p = Some (File c)).
  { intros p c. rewrite Hfs1. by apply make_dirs_keeps_files. }
  destruct (all_advice_run lower DOCX_AVAILABLE project_root sys_argv w1)
    as (w2 & out2 & tr2 & Hrun2 & Hext2 & Hlast2 & Hcs2 & Hfs2 & Htk2).
  - done.
  - rewrite Hfs1. by apply make_dirs_keeps_existing.
  - rewrite Htd, Hfs1. by rewrite make_dirs_keeps_blocked.
  - intros p Hp.
    apply (classifies_as_advice_stable lower DOCX_AVAILABLE w w1).
    + apply (ext_open_fault _ _ _ _ Hext1).
    + intros c Hc. by apply Hkeep1.
    + apply Hall. by apply (candidates_after_mkdir project_root w w1 w).
  - exists w1, w2, out1, out2, tr1, tr2.
    rewrite Htd in Hlast2.
    split; [exact Hrun1|]. split; [exact Hrun2|].
    split; [exact Hext1|]. split; [exact Hext2|].
    split; [exact Hlast1|]. split; [exact Hlast2|].
    split; [exact Hcs1|]. split; [exact Hcs2|].
    split; [exact Hkeep1|].
    intros p c. rewrite <- Hkeep1, Hfs2. apply make_dirs_keeps_files.
    rewrite Htd, Hfs1. by rewrite make_dirs_keeps_blocked.
Qed.

(** The theorem at work, on a tree of two advice documents. *)
Lemma skipping_is_idempotent_witness :
  exists w1 w2,
    run_script Examples.ascii_lower true Examples.proj [Examples.script]
      (Examples.quiet Examples.fs_only_advice) = (0, w1)
    /\ run_script Examples.ascii_lower true Examples.proj [Examples.script]
         w1 = (0, w2)
    /\ (forall p c,
          fs w2 !! p = Some (File c)
          <-> Examples.fs_only_advice !! p = Some (File c)).
Proof.
  destruct (skipping_is_idempotent Examples.ascii_lower true Examples.proj
              [Examples.script] (Examples.quiet Examples.fs_only_advice))
    as (w1 & w2 & _ & _ & _ & _ & Hrun1 & Hrun2 & _ & _ & _ & _ & _ & _
        & _ & Hkeep).
  - simpl. lia.
  - vm_compute. reflexivity.
  - vm_compute. reflexivity.
  - vm_compute. reflexivity.
  - intros p Hp.
    assert (Hc : candidates_at Examples.proj
                   (Examples.quiet Examples.fs_only_advice)
                 = [Examples.advice_1; Examples.advice_2])
      by (vm_compute; reflexivity).
    rewrite Hc in Hp.
    apply elem_of_cons in Hp as [->|Hp];
      [|apply elem_of_cons in Hp as [->|Hp];
        [|exfalso; exact (not_elem_of_nil _ Hp)]].
    + split; [reflexivity|].
      exists [lit ""; lit "  投资建议：买入XYZ"], (lit "投资建议：买入XYZ").
      split; [vm_compute; reflexivity|]. split; [vm_compute; reflexivity|].
      apply startswith_prefix_of. vm_compute. reflexivity.
    + split; [reflexivity|].
      exists [lit "投资建议"], (lit "投资建议").
      split; [vm_compute; reflexivity|]. split; [vm_compute; reflexivity|].
      apply startswith_prefix_of. vm_compute. reflexivity.
  - exists w1, w2. split; [exact Hrun1|]. split; [exact Hrun2|exact Hkeep].
Defined.

(** ** Name collisions *)

Lemma stem_suffix_of_name (nm : str) :
  stem_of_name nm ++ suffix_of_name nm = nm.
Proof.
  unfold stem_of_name, suffix_of_name.
  destruct (split_at_suffix nm); [apply take_drop | apply app_nil_r].
Qed.

(** The name chosen on a collision is never the name that collided. *)
Lemma renamed_target_differs (nm timestamp : str) :
  stem_of_name nm ++ lit "_" ++ timestamp ++ suffix_of_name nm <> nm.
Proof.
  intros H. apply (f_equal length) in H.
  rewrite <- (stem_suffix_of_name nm) in H at 3.
  rewrite !length_app in H. change (length (lit "_")) with 1%nat in H. lia.
Qed.

(** On a destination directory that holds neither name, two reports of the
    same name end as two files: the second under the time-stamped name. *)
Example collision_on_fresh_destination :
  let r := process_candidates Examples.ascii_lower true Examples.today
             [Examples.report_a; Examples.report_b] 0
             (Examples.quiet Examples.fs_reports_dest) in
  fst r = Ok 2%nat
  /\ Examples.destination_listing (fs (snd r))
     = [ (Examples.today ++ [lit "report.docx"], File Examples.observation_A);
         (Examples.today ++ [lit "report_120000.docx"],
          File Examples.observation_B) ].
Proof. vm_compute. split; reflexivity. Qed.

(** C5 fails on the code. The destination directory already holds a
    [report.docx]; the tree has [a/report.docx] and [b/report.docx], neither
    of them advice; the clock shows 12:00:00 at both collision checks. Both
    copies are written to [report_120000.docx]: the run reports 2 copied
    files, the second copy has replaced the first, and the destination
    directory holds one new file, not two. *)
Theorem timestamp_collision_overwrites :
  let w := Examples.quiet Examples.fs_earlier_copy in
  let r := run_script Examples.ascii_lower true Examples.proj
             [Examples.script] w in
  candidates_at Examples.proj w = [Examples.report_b; Examples.report_a]
  /\ Examples.destination_listing (fs w)
     = [ (Examples.today ++ [lit "report.docx"],
          File Examples.earlier_copy) ]
  /\ fst r = 0
  /\ last (stdout (snd r)) = Some (MsgDone 2 Examples.today)
  /\ omap completed_copy_target (trace (snd r))
     = [ Examples.today ++ [lit "report_120000.docx"];
         Examples.today ++ [lit "report_120000.docx"] ]
  /\ Examples.destination_listing (fs (snd r))
     = [ (Examples.today ++ [lit "report.docx"],
          File Examples.earlier_copy);
         (Examples.today ++ [lit "report_120000.docx"],
          File Examples.observation_A) ].
Proof. vm_compute. repeat split; reflexivity. Qed.

(** * Further properties of the script *)

(** ** Trimming *)

Lemma lstrip_split (s : str) :
  exists ws, s = ws ++ lstrip s /\ Forall (fun c => isspace c = true) ws.
Proof.
  induction s as [|c s (ws & Hs & Hws)]; [by exists []|].
  cbn [lstrip]. destruct (isspace c) eqn:Hc.
  - exists (c :: ws). split; [by rewrite <- app_comm_cons, <- Hs|].
    by constructor.
  - by exists [].
Qed.

Lemma lstrip_spaces (ws s : str) :
  Forall (fun c => isspace c = true) ws -> lstrip (ws ++ s) = lstrip s.
Proof.
  induction 1 as [|c ws Hc _ IH]; [done|]. cbn [app lstrip]. by rewrite Hc.
Qed.

Lemma lstrip_head (s : str) :
  match lstrip s with
  | [] => True
  | c :: _ => isspace c = false
  end.
Proof.
  induction s as [|c s IH]; [done|]. cbn [lstrip].
  by destruct (isspace c) eqn:Hc.
Qed.

Lemma lstrip_fixed (s : str) :
  match s with [] => True | c :: _ => isspace c = false end ->
  lstrip s = s.
Proof. destruct s as [|c s]; [done|]. cbn [lstrip]. by intros ->. Qed.

Lemma lstrip_nil_iff (s : str) :
  lstrip s = [] <-> Forall (fun c => isspace c = true) s.
Proof.
  split.
  - intros H. destruct (lstrip_split s) as (ws & Hs & Hws).
    rewrite H, app_nil_r in Hs. by subst.
  - intros H. rewrite <- (app_nil_r s). by rewrite lstrip_spaces.
Qed.

(** [rstrip] leaves a text that starts with a non-space character alone
    up to that character: the text after it is trimmed on its own. *)
Lemma rstrip_cons (c : N) (s : str) :
  isspace c = false -> rstrip (c :: s) = c :: rstrip s.
Proof.
  intros Hc. unfold rstrip. cbn [rev].
  destruct (lstrip_split (rev s)) as (ws & Hs & Hws).
  destruct (lstrip (rev s)) as [|d t] eqn:Hl.
  - rewrite app_nil_r in Hs. rewrite Hs, lstrip_spaces by done.
    cbn [lstrip]. by rewrite Hc.
  - assert (Hd := lstrip_head (rev s)). rewrite Hl in Hd.
    rewrite Hs at 1. rewrite <- app_assoc, lstrip_spaces by done.
    cbn [app lstrip]. rewrite Hd. cbn [rev]. by rewrite rev_app_distr.
Qed.

Lemma rstrip_spaces (s : str) :
  Forall (fun c => isspace c = true) s -> rstrip s = [].
Proof.
  intros H. unfold rstrip.
  assert (Hr : lstrip (rev s) = []).
  { apply lstrip_nil_iff. apply Forall_forall. intros c Hc.
    rewrite Forall_forall in H. apply H.
    by apply list_elem_of_In, in_rev, list_elem_of_In. }
  by rewrite Hr.
Qed.

Lemma strip_nil_iff (s : str) :
  strip s = [] <-> Forall (fun c => isspace c = true) s.
Proof.
  unfold strip. split.
  - intros H. apply lstrip_nil_iff.
    assert (Hh := lstrip_head s).
    destruct (lstrip s) as [|c t]; [done|].
    by rewrite rstrip_cons in H.
  - intros H. apply lstrip_nil_iff in H. by rewrite H.
Qed.

Lemma rstrip_prefix (s p : str) :
  Forall (fun c => isspace c = false) p ->
  rstrip (p ++ s) = p ++ rstrip s.
Proof.
  induction 1 as [|c p Hc _ IH]; [done|].
  cbn [app]. by rewrite rstrip_cons, IH.
Qed.

Lemma rstrip_is_prefix (s : str) : rstrip s `prefix_of` s.
Proof.
  unfold rstrip. destruct (lstrip_split (rev s)) as (ws & Hs & _).
  exists (rev ws). rewrite <- rev_app_distr, <- Hs. by rewrite rev_involutive.
Qed.

Lemma rstrip_fixed (s : str) :
  match rev s with [] => True | c :: _ => isspace c = false end ->
  rstrip s = s.
Proof.
  intros H. unfold rstrip. rewrite lstrip_fixed by done.
  apply rev_involutive.
Qed.

(** Trimming twice is trimming once. *)
Lemma strip_idempotent (s : str) : strip (strip s) = strip s.
Proof.
  unfold strip.
  assert (Hh := lstrip_head s).
  destruct (rstrip_is_prefix (lstrip s)) as [ws Hws].
  set (u := rstrip (lstrip s)) in *.
  assert (Hu : lstrip u = u).
  { apply lstrip_fixed. destruct u as [|c u]; [done|].
    rewrite Hws in Hh. done. }
  rewrite Hu. apply rstrip_fixed. subst u. unfold rstrip.
  rewrite rev_involutive. apply lstrip_head.
Qed.

Lemma marker_has_no_space : Forall (fun c => isspace c = false) marker.
Proof. repeat constructor. Qed.

(** Whether a paragraph opens with the marker is decided by the text that
    follows its leading white space; what trails the paragraph is of no
    account. *)
Lemma startswith_strip_marker (p : str) :
  startswith (strip p) marker = startswith (lstrip p) marker.
Proof.
  unfold strip. destruct (startswith (lstrip p) marker) eqn:Hl.
  - apply startswith_prefix_of in Hl as [k ->].
    rewrite rstrip_prefix by apply marker_has_no_space.
    apply startswith_app.
  - destruct (startswith (rstrip (lstrip p)) marker) eqn:Hs; [|done].
    apply startswith_prefix_of in Hs.
    assert (Hp : marker `prefix_of` lstrip p).
    { etrans; [exact Hs | apply rstrip_is_prefix]. }
    apply startswith_prefix_of in Hp. congruence.
Qed.

Lemma first_nonempty_None_iff (doc : list str) :
  first_nonempty_paragraph doc = None
  <-> Forall (fun p => Forall (fun c => isspace c = true) p) doc.
Proof.
  induction doc as [|p doc IH]; [done|]. cbn [first_nonempty_paragraph].
  rewrite Forall_cons, <- IH, <- strip_nil_iff.
  destruct (bool_decide (strip p = [])) eqn:Hb.
  - apply bool_decide_eq_true in Hb. intuition.
  - apply bool_decide_eq_false in Hb. intuition congruence.
Qed.

Lemma first_nonempty_Some (doc : list str) (s : str) :
  first_nonempty_paragraph doc = Some s ->
  s <> [] /\ exists p, p ∈ doc /\ s = strip p.
Proof.
  induction doc as [|p doc IH]; [done|]. cbn [first_nonempty_paragraph].
  destruct (bool_decide (strip p = [])) eqn:Hb.
  - intros H. destruct (IH H) as (Hs & q & Hq & ->).
    split; [done|]. exists q. split; [by apply list_elem_of_further|done].
  - apply bool_decide_eq_false in Hb. intros [= <-].
    split; [done|]. exists p. split; [apply list_elem_of_here|done].
Qed.

(** X1. The content verdict reads the leading text only. For a document
    that python-docx reads, whose paragraphs before [p] consist of white
    space only and whose paragraph [p] does not, the classification is
    advice exactly when [p], with its leading white space removed, starts
    with 投资建议: blank paragraphs before it, the white space around it and
    every later paragraph are of no account. *)
Theorem verdict_reads_leading_text (lower : str -> str) (f : Path)
    (w : World) (blanks later : list str) (p : str) :
  Document_outcome w f = Ok (blanks ++ p :: later) ->
  Forall (fun q => Forall (fun c => isspace c = true) q) blanks ->
  ~ Forall (fun c => isspace c = true) p ->
  decide_should_copy lower true f w
  = (Ok (negb (startswith (lstrip p) marker)), record (EvDocument f) w).
Proof.
  intros Hdoc Hblanks Hp.
  rewrite decide_should_copy_run. cbv iota. rewrite Hdoc.
  rewrite first_nonempty_after_blanks.
  - change (default [] (Some (strip p))) with (strip p).
    by rewrite startswith_strip_marker.
  - eapply Forall_impl; [exact Hblanks|]. intros q Hq.
    by apply strip_nil_iff.
  - by rewrite strip_nil_iff.
Qed.

(** The theorem at work: an empty paragraph, then 市场观察 after a space. *)
Lemma verdict_reads_leading_text_witness :
  decide_should_copy Examples.ascii_lower true Examples.twin_2
    (Examples.quiet Examples.fs_twins)
  = (Ok true,
     record (EvDocument Examples.twin_2) (Examples.quiet Examples.fs_twins)).
Proof.
  rewrite (verdict_reads_leading_text Examples.ascii_lower Examples.twin_2
             (Examples.quiet Examples.fs_twins) [lit ""] [lit "附录"]
             (lit " 市场观察")).
  - reflexivity.
  - vm_compute. reflexivity.
  - repeat constructor.
  - intros H. apply Forall_cons in H as [_ H].
    apply Forall_cons in H as [H _]. vm_compute in H. discriminate.
Defined.

(** X2. What [extract_first_paragraph] hands back. It never lets an
    [Exception] out: if it raises, the environment interrupted the open.
    The text it returns is trimmed (trimming it again changes nothing), and
    it is empty exactly when python-docx could not read the file or every
    paragraph of the document is white space. *)
Theorem extract_first_paragraph_result (docx_path : Path) (w : World) :
  match fst (extract_first_paragraph docx_path w) with
  | Ok text =>
    strip text = text
    /\ (text = []
        <-> (exists e, Document_outcome w docx_path = Raise e)
            \/ (exists doc,
                  Document_outcome w docx_path = Ok doc
                  /\ Forall (fun p => Forall (fun c => isspace c = true) p)
                       doc))
  | Raise e => is_Exception e = false /\ open_fault w docx_path = Some e
  end.
Proof.
  rewrite extract_first_paragraph_run.
  destruct (Document_outcome w docx_path) as [doc|e] eqn:Hd.
  - cbn [fst].
    destruct (first_nonempty_paragraph doc) as [s|] eqn:Hf.
    + destruct (first_nonempty_Some doc s Hf) as (Hs & q & _ & ->).
      change (default [] (Some (strip q))) with (strip q).
      split; [apply strip_idempotent|]. split; [done|].
      intros [[e He]|(doc' & [= <-] & Hall)]; [done|].
      apply first_nonempty_None_iff in Hall. congruence.
    + split; [done|]. split; [|done]. intros _. right. exists doc.
      split; [done|]. by apply first_nonempty_None_iff.
  - destruct (is_Exception e) eqn:HE; cbn [fst].
    + split; [done|]. split; [|done]. intros _. left. by exists e.
    + split; [done|].
      destruct (Document_outcome_Raise _ _ _ Hd); congruence.
Qed.

(** ** What a run does to the file tree *)

(** One pass through the [try] statement either leaves the file tree alone
    or writes the candidate's content at the place [shutil.copy2] chose. *)
Lemma try_candidate_fs (lower : str -> str) (DOCX_AVAILABLE : bool)
    (target_dir f : Path) (n : nat) (w : World) :
  fs (snd (try_candidate lower DOCX_AVAILABLE target_dir f n w)) = fs w
  \/ exists c,
       fs w !! f = Some (File c)
       /\ copy2_error w f (chosen_target w target_dir f) = None
       /\ fs (snd (try_candidate lower DOCX_AVAILABLE target_dir f n w))
          = <[copy2_dest (fs w) f (chosen_target w target_dir f) := File c]>
              (fs w).
Proof.
  destruct (try_candidate lower DOCX_AVAILABLE target_dir f n w)
    as [r w'] eqn:HR. cbn [snd]. revert HR.
  unfold try_candidate, try_except_Exception, process_candidate.
  unfold bind at 1.
  destruct (decide_should_copy_step lower DOCX_AVAILABLE f w)
    as (r1 & w1 & o1 & t1 & Hrun & Hext & Hfs & Htk & _).
  rewrite Hrun. destruct r1 as [[|]|e].
  - rewrite copy_phase_run. cbv zeta.
    assert (Ht : chosen_target w1 target_dir f = chosen_target w target_dir f).
    { unfold chosen_target. by rewrite Hfs, Htk, (ext_clock _ _ _ _ Hext). }
    assert (He : copy2_error w1 f (chosen_target w target_dir f)
                 = copy2_error w f (chosen_target w target_dir f)).
    { unfold copy2_error. by rewrite Hfs, (ext_copy_fault _ _ _ _ Hext). }
    rewrite Ht, He, Hfs.
    destruct (copy2_error w f (chosen_target w target_dir f)) as [e|] eqn:Hce.
    + intros HR. left. rewrite <- Hfs.
      destruct (is_Exception e); destruct (fs_exists _ _);
        by injection HR as <- <-.
    + intros [= <- <-]. right.
      destruct (copy2_error_None_source _ _ _ Hce) as [c Hc].
      exists c. rewrite Hc. done.
  - intros [= <- <-]. left. exact Hfs.
  - intros HR. left. rewrite <- Hfs.
    destruct (is_Exception e); by injection HR as <- <-.
Qed.

Lemma chosen_target_in_existing_dir (w : World) (target_dir f : Path) :
  fs_exists (fs w) target_dir = true \/ Path_name f <> [] ->
  exists x, chosen_target w target_dir f = target_dir ++ [x].
Proof.
  intros [Hex|Hn]; [|by apply chosen_target_in_target_dir].
  destruct (Path_name f) as [|c nm] eqn:Hnm;
    [|apply chosen_target_in_target_dir; congruence].
  unfold chosen_target. rewrite Hnm. cbn [joinpath]. rewrite Hex.
  replace (lit "_") with [95] by reflexivity.
  destruct (Path_stem _); simpl; eauto.
Qed.

Lemma copy2_dest_below (w : World) (target_dir f : Path) :
  fs_exists (fs w) target_dir = true \/ Path_name f <> [] ->
  is_below target_dir
    (copy2_dest (fs w) f (chosen_target w target_dir f)) = true.
Proof.
  intros H. destruct (chosen_target_in_existing_dir w target_dir f H)
    as [x ->].
  unfold copy2_dest. destruct (fs_is_dir _ _); [|apply is_below_app].
  destruct (Path_name f) as [|c nm]; [apply is_below_app|].
  rewrite joinpath_cons, <- app_assoc. apply is_below_app.
Qed.

Lemma copy2_dest_not_dir (w : World) (src dst : Path) :
  copy2_error w src dst = None ->
  fs_is_dir (fs w) (copy2_dest (fs w) src dst) = false.
Proof.
  unfold copy2_error. destruct (copy_fault w src dst); [done|].
  destruct (fs w !! src) as [[|c]|]; [done| |done]. cbv zeta.
  destruct (bool_decide _); [done|].
  by destruct (fs_is_dir (fs w) (copy2_dest (fs w) src dst)).
Qed.

Lemma is_below_root (d : Path) : is_below d [] = false.
Proof.
  unfold is_below. rewrite andb_false_iff. right. apply Nat.ltb_ge.
  simpl. lia.
Qed.

Lemma is_below_not_self (d : Path) : is_below d d = false.
Proof.
  unfold is_below. rewrite andb_false_iff. right. apply Nat.ltb_ge. lia.
Qed.

Lemma is_below_exists_after_insert (f : gmap Path node) (d p : Path)
    (nd : node) :
  fs_exists f d = true -> fs_exists (<[p := nd]> f) d = true.
Proof.
  destruct d as [|x d]; [done|]. unfold fs_exists.
  rewrite lookup_insert. destruct (decide (p = x :: d)); [done|].
  by destruct (f !! (x :: d)).
Qed.

(** The loop touches nothing outside the destination directory, removes
    nothing, and never puts a file where a directory was. *)
Lemma process_candidates_fs (lower : str -> str) (DOCX_AVAILABLE : bool)
    (target_dir : Path) (files : list Path) (n : nat) (w : World) :
  fs_exists (fs w) target_dir = true ->
  let w' := snd (process_candidates lower DOCX_AVAILABLE target_dir files
                   n w) in
  (forall p, is_below target_dir p = false -> fs w' !! p = fs w !! p)
  /\ (forall p, is_Some (fs w !! p) -> is_Some (fs w' !! p))
  /\ (forall p, fs w !! p = Some Dir -> fs w' !! p = Some Dir).
Proof.
  revert n w. induction files as [|f rest IH]; intros n w Hex; [done|].
  cbn [process_candidates]. unfold bind.
  assert (Hstep := try_candidate_fs lower DOCX_AVAILABLE target_dir f n w).
  destruct (try_candidate lower DOCX_AVAILABLE target_dir f n w)
    as [[c|e] w1] eqn:Hrun; cbn [snd] in Hstep.
  - assert (Hex1 : fs_exists (fs w1) target_dir = true).
    { destruct Hstep as [->|(c0 & _ & _ & ->)]; [done|].
      by apply is_below_exists_after_insert. }
    specialize (IH c w1 Hex1). cbv zeta in *.
    destruct IH as (Hout & Hsome & Hdir).
    destruct Hstep as [Hfs|(c0 & Hsrc & Herr & Hfs)].
    + rewrite Hfs in *. done.
    + assert (Hb := copy2_dest_below w target_dir f (or_introl Hex)).
      assert (Hnd := copy2_dest_not_dir w f _ Herr).
      set (d := copy2_dest (fs w) f (chosen_target w target_dir f)) in *.
      split; [|split].
      * intros p Hp. rewrite Hout by done. rewrite Hfs.
        apply lookup_insert_ne. intros ->. congruence.
      * intros p Hp. apply Hsome. rewrite Hfs, lookup_insert.
        by destruct (decide (d = p)).
      * intros p Hp. apply Hdir. rewrite Hfs, lookup_insert_ne; [done|].
        intros ->. unfold fs_is_dir in Hnd.
        destruct p; [by rewrite is_below_root in Hb | by rewrite Hp in Hnd].
  - cbn [snd].
    destruct Hstep as [Hfs|(c0 & Hsrc & Herr & Hfs)].
    + rewrite Hfs. done.
    + assert (Hb := copy2_dest_below w target_dir f (or_introl Hex)).
      assert (Hnd := copy2_dest_not_dir w f _ Herr).
      set (d := copy2_dest (fs w) f (chosen_target w target_dir f)) in *.
      split; [|split].
      * intros p Hp. rewrite Hfs.
        apply lookup_insert_ne. intros ->. congruence.
      * intros p Hp. rewrite Hfs, lookup_insert.
        by destruct (decide (d = p)).
      * intros p Hp. rewrite Hfs, lookup_insert_ne; [done|].
        intros ->. unfold fs_is_dir in Hnd.
        destruct p; [by rewrite is_below_root in Hb | by rewrite Hp in Hnd].
Qed.

Lemma self_in_ancestors (x : str) (p : Path) :
  x :: p ∈ ancestors_and_self (x :: p).
Proof.
  unfold ancestors_and_self. apply list_elem_of_In, in_map_iff.
  exists (length (x :: p)). split; [apply firstn_all|].
  apply in_seq. simpl. lia.
Qed.

Lemma make_dirs_creates (f : gmap Path node) (p : Path) :
  fs_exists (make_dirs f p) p = true.
Proof.
  destruct p as [|x p]; [done|]. unfold fs_exists.
  rewrite make_dirs_lookup, bool_decide_eq_true_2; [done|].
  apply self_in_ancestors.
Qed.

Lemma make_dirs_fs (f : gmap Path node) (d : Path) :
  (forall p, p ∉ ancestors_and_self d -> make_dirs f d !! p = f !! p)
  /\ (forall p, is_Some (f !! p) -> is_Some (make_dirs f d !! p))
  /\ (forall p, f !! p = Some Dir -> make_dirs f d !! p = Some Dir).
Proof.
  split; [|split]; intros p Hp; rewrite make_dirs_lookup.
  - by rewrite bool_decide_eq_false_2.
  - by destruct (bool_decide _).
  - by destruct (bool_decide _).
Qed.

Lemma classify_and_copy_fs (lower : str -> str) (DOCX_AVAILABLE : bool)
    (target_dir : Path) (files : list Path) (w : World) :
  fs_exists (fs w) target_dir = true ->
  let w' := snd (classify_and_copy lower DOCX_AVAILABLE target_dir files w) in
  (forall p, is_below target_dir p = false -> fs w' !! p = fs w !! p)
  /\ (forall p, is_Some (fs w !! p) -> is_Some (fs w' !! p))
  /\ (forall p, fs w !! p = Some Dir -> fs w' !! p = Some Dir).
Proof.
  intros Hex. unfold classify_and_copy.
  set (w0 := if DOCX_AVAILABLE then w else emit MsgFilenameMode w).
  assert (Hfs0 : fs w0 = fs w) by (subst w0; by destruct DOCX_AVAILABLE).
  assert (Hstart : forall k : unit -> M unit,
             ((if DOCX_AVAILABLE then ret tt else print MsgFilenameMode)
              ;;; k tt) w = k tt w0).
  { intros k. subst w0. by destruct DOCX_AVAILABLE. }
  rewrite (Hstart (fun _ =>
             copied_count <- process_candidates lower DOCX_AVAILABLE
                               target_dir files 0 ;;
             print (MsgDone copied_count target_dir))).
  unfold bind.
  assert (Hloop := process_candidates_fs lower DOCX_AVAILABLE target_dir
                     files 0 w0). rewrite Hfs0 in Hloop.
  specialize (Hloop Hex). cbv zeta in Hloop.
  destruct (process_candidates lower DOCX_AVAILABLE target_dir files 0 w0)
    as [[c|e] w1]; exact Hloop.
Qed.

Lemma single_file_mode_run (lower : str -> str) (DOCX_AVAILABLE : bool)
    (project_root file : Path) (w : World) :
  copy_non_investment_docx_files lower DOCX_AVAILABLE project_root
    (Some file) w =
  if mkdir_blocked (fs w) (target_dir_at w)
  then (Raise (Exception "FileExistsError"), tick w)
  else classify_and_copy lower DOCX_AVAILABLE (target_dir_at w) [file]
         (emit (MsgSingleFile (Path_name file))
            (emit (MsgTargetDir (target_dir_at w))
               (record (EvMkdir (target_dir_at w))
                  (set_fs (make_dirs (fs w) (target_dir_at w)) (tick w))))).
Proof.
  unfold copy_non_investment_docx_files, bind, datetime_now,
    Path_mkdir_parents_exist_ok, print.
  change (fs (tick w)) with (fs w).
  change (joinpath target_base_dir (strftime_Ymd (clock w (ticks w))))
    with (target_dir_at w).
  by destruct (mkdir_blocked (fs w) (target_dir_at w)).
Qed.

(** What [copy_non_investment_docx_files] does to the file tree, in either
    mode. *)
Lemma copier_fs (lower : str -> str) (DOCX_AVAILABLE : bool)
    (project_root : Path) (single_file : option Path) (w : World) :
  let w' := snd (copy_non_investment_docx_files lower DOCX_AVAILABLE
                   project_root single_file w) in
  (forall p, is_below (target_dir_at w) p = false ->
             p ∉ ancestors_and_self (target_dir_at w) ->
             fs w' !! p = fs w !! p)
  /\ (forall p, is_Some (fs w !! p) -> is_Some (fs w' !! p))
  /\ (forall p, fs w !! p = Some Dir -> fs w' !! p = Some Dir).
Proof.
  set (td := target_dir_at w).
  destruct (make_dirs_fs (fs w) td) as (Hm1 & Hm2 & Hm3).
  assert (Hcc : forall files w1,
            fs w1 = make_dirs (fs w) td ->
            let w' := snd (classify_and_copy lower DOCX_AVAILABLE td files
                             w1) in
            (forall p, is_below td p = false -> p ∉ ancestors_and_self td ->
                       fs w' !! p = fs w !! p)
            /\ (forall p, is_Some (fs w !! p) -> is_Some (fs w' !! p))
            /\ (forall p, fs w !! p = Some Dir -> fs w' !! p = Some Dir)).
  { intros files w1 Hfs1.
    destruct (classify_and_copy_fs lower DOCX_AVAILABLE td files w1)
      as (H1 & H2 & H3).
    { rewrite Hfs1. apply make_dirs_creates. }
    cbv zeta. rewrite Hfs1 in *. split; [|split].
    - intros p Hb Ha. by rewrite H1, Hm1.
    - intros p Hp. by apply H2, Hm2.
    - intros p Hp. by apply H3, Hm3. }
  destruct single_file as [file|].
  - rewrite single_file_mode_run. fold td.
    destruct (mkdir_blocked (fs w) td); [done|]. by apply Hcc.
  - rewrite directory_mode_run. fold td.
    destruct (mkdir_blocked (fs w) td); [done|]. cbv zeta.
    destruct (fs_exists _ (source_dir_of project_root));
      [by apply Hcc|].
    cbn [snd fs emit record set_fs].
    split; [intros p _ Ha; by apply Hm1 | by split].
Qed.

Lemma run_script_fs (lower : str -> str) (DOCX_AVAILABLE : bool)
    (project_root : Path) (sys_argv : list Path) (w : World) :
  fs (snd (run_script lower DOCX_AVAILABLE project_root sys_argv w)) = fs w
  \/ exists single_file,
       fs (snd (run_script lower DOCX_AVAILABLE project_root sys_argv w))
       = fs (snd (copy_non_investment_docx_files lower DOCX_AVAILABLE
                    project_root single_file
                    (after_opening DOCX_AVAILABLE w))).
Proof.
  rewrite run_script_run.
  destruct (after_opening_extends DOCX_AVAILABLE w) as (_ & Hfs & _).
  destruct sys_argv as [|a [|file_path more]].
  1,2: right; exists None.
  3: destruct (fs_exists (fs w) file_path && _);
       [right; exists (Some file_path) | left; exact Hfs].
  all: destruct (copy_non_investment_docx_files _ _ _ _ _)
         as [[?|[| |]] ?]; done.
Qed.

(** X3. A run writes only inside the destination directory. Whatever the
    arguments, the strategy and the machine, and however the run ends, a
    path that is neither the date-stamped destination directory, nor one
    of its parents, nor below it holds after the run exactly what it held
    before: the source tree in particular is never written to, unless it
    lies there. *)
Theorem run_writes_only_below_destination (lower : str -> str)
    (DOCX_AVAILABLE : bool) (project_root : Path) (sys_argv : list Path)
    (w : World) (p : Path) :
  is_below (target_dir_at w) p = false ->
  p ∉ ancestors_and_self (target_dir_at w) ->
  fs (snd (run_script lower DOCX_AVAILABLE project_root sys_argv w)) !! p
  = fs w !! p.
Proof.
  intros Hb Ha.
  destruct (after_opening_extends DOCX_AVAILABLE w) as (_ & Hfs & _).
  destruct (run_script_fs lower DOCX_AVAILABLE project_root sys_argv w)
    as [->|[single ->]]; [done|].
  destruct (copier_fs lower DOCX_AVAILABLE project_root single
              (after_opening DOCX_AVAILABLE w)) as (H1 & _).
  rewrite target_dir_at_after_opening, Hfs in H1. by apply H1.
Qed.

(** The theorem at work: after a run over the example tree, [a/report.docx]
    is what it was. *)
Lemma run_writes_only_below_destination_witness :
  fs (snd (run_script Examples.ascii_lower true Examples.proj
             [Examples.script] (Examples.quiet Examples.fs_reports)))
    !! Examples.report_a
  = Some (File Examples.observation_A).
Proof.
  rewrite (run_writes_only_below_destination Examples.ascii_lower true
             Examples.proj [Examples.script]
             (Examples.quiet Examples.fs_reports) Examples.report_a).
  - vm_compute. reflexivity.
  - vm_compute. reflexivity.
  - vm_compute. intros H. repeat (apply elem_of_cons in H as [H|H];
      [discriminate|]). exact (not_elem_of_nil _ H).
Defined.

(** X4. A run removes nothing. Whatever the arguments, the strategy and
    the machine, every path that exists before the run exists after it, and
    a directory is still a directory: the script never deletes, and never
    puts a file in the place of a directory. *)
Theorem run_never_removes (lower : str -> str) (DOCX_AVAILABLE : bool)
    (project_root : Path) (sys_argv : list Path) (w : World) (p : Path)
    (nd : node) :
  fs w !! p = Some nd ->
  exists nd',
    fs (snd (run_script lower DOCX_AVAILABLE project_root sys_argv w)) !! p
    = Some nd'
    /\ (nd = Dir -> nd' = Dir).
Proof.
  intros Hp.
  destruct (after_opening_extends DOCX_AVAILABLE w) as (_ & Hfs & _).
  assert (Hgoal : forall f' : gmap Path node,
            (forall q, is_Some (fs w !! q) -> is_Some (f' !! q)) ->
            (forall q, fs w !! q = Some Dir -> f' !! q = Some Dir) ->
            exists nd', f' !! p = Some nd' /\ (nd = Dir -> nd' = Dir)).
  { intros f' H2 H3. destruct (H2 p) as [nd' Hnd']; [by exists nd|].
    exists nd'. split; [done|]. intros ->.
    rewrite (H3 p Hp) in Hnd'. congruence. }
  destruct (run_script_fs lower DOCX_AVAILABLE project_root sys_argv w)
    as [->|[single ->]]; [by apply Hgoal|].
  destruct (copier_fs lower DOCX_AVAILABLE project_root single
              (after_opening DOCX_AVAILABLE w)) as (_ & H2 & H3).
  rewrite Hfs in H2, H3. by apply Hgoal.
Qed.

(** The theorem at work: the destination's earlier [report.docx] is still
    there after the run that collides with it. *)
Lemma run_never_removes_witness :
  exists nd',
    fs (snd (run_script Examples.ascii_lower true Examples.proj
               [Examples.script] (Examples.quiet Examples.fs_earlier_copy)))
      !! (Examples.today ++ [lit "report.docx"])
    = Some nd'.
Proof.
  destruct (run_never_removes Examples.ascii_lower true Examples.proj
              [Examples.script] (Examples.quiet Examples.fs_earlier_copy)
              (Examples.today ++ [lit "report.docx"])
              (File Examples.earlier_copy)) as (nd' & Hnd' & _).
  - vm_compute. reflexivity.
  - by exists nd'.
Defined.

(** ** How a run ends *)

(** The loop and its report, in full. *)
Lemma classify_and_copy_run (lower : str -> str) (DOCX_AVAILABLE : bool)
    (target_dir : Path) (files : list Path) (w : World) :
  exists r w' out tr,
    classify_and_copy lower DOCX_AVAILABLE target_dir files w = (r, w')
    /\ extends w w' out tr
    /\ omap copy_source tr `sublist_of` files
    /\ match r with
       | Ok _ =>
         last out = Some (MsgDone (completed_copies tr) target_dir)
         /\ omap closing_line out = List.map Path_name files
         /\ omap opened_document tr
            = (if DOCX_AVAILABLE then files else [])
       | Raise e =>
         is_Exception e = false
         /\ exists p, p ∈ files
              /\ (open_fault w p = Some e
                  \/ exists dst, copy_fault w p dst = Some e)
       end.
Proof.
  unfold classify_and_copy.
  set (w0 := if DOCX_AVAILABLE then w else emit MsgFilenameMode w).
  set (o0 := if DOCX_AVAILABLE then [] else [MsgFilenameMode]).
  assert (Hw0 : extends w w0 o0 []).
  { subst w0 o0. destruct DOCX_AVAILABLE;
      [apply extends_refl | apply extends_emit]. }
  assert (Ho0 : omap closing_line o0 = [])
    by (subst o0; by destruct DOCX_AVAILABLE).
  assert (Hstart : forall k : unit -> M unit,
             ((if DOCX_AVAILABLE then ret tt else print MsgFilenameMode)
              ;;; k tt) w = k tt w0).
  { intros k. subst w0. by destruct DOCX_AVAILABLE. }
  rewrite (Hstart (fun _ =>
             copied_count <- process_candidates lower DOCX_AVAILABLE
                               target_dir files 0 ;;
             print (MsgDone copied_count target_dir))).
  unfold bind.
  destruct (process_candidates_run lower DOCX_AVAILABLE target_dir files
              0 w0)
    as (r & w' & out & tr & Hrun & Hext & Hsub & Hdone & _ & _ & Hr).
  rewrite Hrun. destruct r as [c|e].
  - destruct Hr as (Hcl & Hop & -> & _). simpl.
    eexists _, _, ((o0 ++ out) ++ [MsgDone (completed_copies tr) target_dir]),
      (([] ++ tr) ++ []).
    split; [reflexivity|]. split.
    { eapply extends_trans; [|apply extends_emit].
      by eapply extends_trans. }
    rewrite app_nil_r, last_snoc, !omap_app, Ho0, Hcl. simpl.
    rewrite app_nil_r. done.
  - destruct Hr as (HE & p & Hp & Hfault).
    eexists _, _, (o0 ++ out), ([] ++ tr). split; [reflexivity|].
    split; [by eapply extends_trans|]. split; [done|]. split; [done|].
    exists p. split; [done|].
    rewrite <- (ext_open_fault _ _ _ _ Hw0).
    by rewrite <- (ext_copy_fault _ _ _ _ Hw0).
Qed.

(** [copy_non_investment_docx_files] in either mode: how it ends and what
    it has printed by then. *)
Lemma copier_run (lower : str -> str) (DOCX_AVAILABLE : bool)
    (project_root : Path) (single_file : option Path) (w : World) :
  (mkdir_blocked (fs w) (target_dir_at w) = true
   /\ copy_non_investment_docx_files lower DOCX_AVAILABLE project_root
        single_file w
      = (Raise (Exception "FileExistsError"), tick w))
  \/ (mkdir_blocked (fs w) (target_dir_at w) = false
      /\ exists r w' out tr,
           copy_non_investment_docx_files lower DOCX_AVAILABLE project_root
             single_file w = (r, w')
           /\ extends w w' (MsgTargetDir (target_dir_at w) :: out)
                (EvMkdir (target_dir_at w) :: tr)
           /\ match r with
              | Ok _ =>
                exists m, last out = Some m
                  /\ (is_done_line m = true
                      \/ m = MsgSourceMissing (source_dir_of project_root))
              | Raise e =>
                is_Exception e = false
                /\ exists p, open_fault w p = Some e
                     \/ exists dst, copy_fault w p dst = Some e
              end).
Proof.
  set (td := target_dir_at w).
  destruct (mkdir_blocked (fs w) td) eqn:Hmk.
  { left. split; [done|].
    destruct single_file;
      [rewrite single_file_mode_run | rewrite directory_mode_run];
      fold td; by rewrite Hmk. }
  right. split; [done|].
  set (w1 := emit (MsgTargetDir td)
               (record (EvMkdir td) (set_fs (make_dirs (fs w) td) (tick w)))).
  assert (Hext1 : extends w w1 [MsgTargetDir td] [EvMkdir td])
    by (by split).
  assert (Hcc : forall files (w2 : World) o2,
            extends w1 w2 o2 [] ->
            exists r w' out tr,
              classify_and_copy lower DOCX_AVAILABLE td files w2 = (r, w')
              /\ extends w w' (MsgTargetDir td :: out) (EvMkdir td :: tr)
              /\ match r with
                 | Ok _ =>
                   exists m, last out = Some m
                     /\ (is_done_line m = true
                         \/ m = MsgSourceMissing (source_dir_of project_root))
                 | Raise e =>
                   is_Exception e = false
                   /\ exists p, open_fault w p = Some e
                        \/ exists dst, copy_fault w p dst = Some e
                 end).
  { intros files w2 o2 Hext2.
    destruct (classify_and_copy_run lower DOCX_AVAILABLE td files w2)
      as (r & w' & out & tr & Hrun & Hext & _ & Hr).
    exists r, w', (o2 ++ out), tr. split; [exact Hrun|]. split.
    { change (MsgTargetDir td :: o2 ++ out)
        with ([MsgTargetDir td] ++ (o2 ++ out)).
      change (EvMkdir td :: tr) with ([EvMkdir td] ++ ([] ++ tr)).
      eapply extends_trans; [exact Hext1|]. by eapply extends_trans. }
    destruct r as [[]|e].
    - destruct Hr as (Hlast & _).
      exists (MsgDone (completed_copies tr) td).
      split; [|by left].
      apply last_Some in Hlast as [l' ->].
      by rewrite app_assoc, last_snoc.
    - destruct Hr as (HE & p & _ & Hfault). split; [done|]. exists p.
      rewrite <- (ext_open_fault _ _ _ _ Hext1),
        <- (ext_copy_fault _ _ _ _ Hext1),
        <- (ext_open_fault _ _ _ _ Hext2),
        <- (ext_copy_fault _ _ _ _ Hext2). done. }
  destruct single_file as [file|].
  - rewrite single_file_mode_run. fold td. rewrite Hmk. fold w1.
    apply (Hcc _ _ [MsgSingleFile (Path_name file)]). apply extends_emit.
  - rewrite directory_mode_run. fold td. rewrite Hmk. cbv zeta. fold w1.
    destruct (fs_exists (fs w1) (source_dir_of project_root)).
    + apply (Hcc _ _ [MsgFound (length (candidates_at project_root w1))]).
      apply extends_emit.
    + eexists _, _, [MsgSourceMissing (source_dir_of project_root)], [].
      split; [reflexivity|]. split.
      { change (MsgTargetDir td :: [MsgSourceMissing _])
          with ([MsgTargetDir td] ++ [MsgSourceMissing
                                        (source_dir_of project_root)]).
        change [EvMkdir td] with ([EvMkdir td] ++ []).
        eapply extends_trans; [exact Hext1|apply extends_emit]. }
      eexists. split; [reflexivity|]. by right.
Qed.

(** X5. The exit status. On a machine whose faults are exceptions or
    keyboard interrupts, every run of the script ends with status 0 or 1.
    With status 0 its last line is the report of the count, the
    source-missing message or the invalid-path message. With status 1 its
    last line is the interrupt message or the unexpected-error message for
    a destination directory that could not be created. Errors of single
    candidates never reach the exit status. *)
Theorem exit_status_is_0_or_1 (lower : str -> str) (DOCX_AVAILABLE : bool)
    (project_root : Path) (sys_argv : list Path) (w : World) :
  no_injected_exit w ->
  exists code w' out tr,
    run_script lower DOCX_AVAILABLE project_root sys_argv w = (code, w')
    /\ extends w w' out tr
    /\ ((code = 0
         /\ exists m, last out = Some m
              /\ (is_done_line m = true
                  \/ m = MsgSourceMissing (source_dir_of project_root)
                  \/ exists file_path, m = MsgInvalidPath file_path))
        \/ (code = 1
            /\ (last out = Some MsgInterrupted
                \/ last out
                   = Some (MsgUnexpected (Exception "FileExistsError"))))).
Proof.
  intros [Hno1 Hno2]. rewrite run_script_run.
  destruct (after_opening_extends DOCX_AVAILABLE w) as (Hext0 & Hfs0 & Htk0).
  set (w0 := after_opening DOCX_AVAILABLE w) in *.
  assert (Hcopier : forall single,
            exists code w' out tr,
              match copy_non_investment_docx_files lower DOCX_AVAILABLE
                      project_root single w0 with
              | (Ok _, w') => (0, w')
              | (Raise KeyboardInterrupt, w') => (1, emit MsgInterrupted w')
              | (Raise (Exception s), w') =>
                (1, emit (MsgUnexpected (Exception s)) w')
              | (Raise (SystemExit code), w') => (code, w')
              end = (code, w')
              /\ extends w w' out tr
              /\ ((code = 0
                   /\ exists m, last out = Some m
                        /\ (is_done_line m = true
                            \/ m = MsgSourceMissing
                                     (source_dir_of project_root)
                            \/ exists file_path, m = MsgInvalidPath file_path))
                  \/ (code = 1
                      /\ (last out = Some MsgInterrupted
                          \/ last out
                             = Some (MsgUnexpected
                                       (Exception "FileExistsError")))))).
  { intros single.
    destruct (copier_run lower DOCX_AVAILABLE project_root single w0)
      as [[_ ->]|(_ & r & w' & out & tr & -> & Hext & Hr)].
    - eexists _, _,
        ((opening_lines DOCX_AVAILABLE ++ [])
         ++ [MsgUnexpected (Exception "FileExistsError")]), (([] ++ []) ++ []).
      split; [reflexivity|]. split.
      { eapply extends_trans; [|apply extends_emit].
        eapply extends_trans; [exact Hext0|].
        split; simpl; rewrite ?app_nil_r; done. }
      right. split; [done|]. right. by rewrite last_snoc.
    - destruct r as [[]|e].
      + destruct Hr as (m & Hlast & Hm).
        eexists _, _, _, _. split; [reflexivity|].
        split; [by eapply extends_trans|].
        left. split; [done|]. exists m. split; [|tauto].
        apply last_Some in Hlast as [l' ->].
        by rewrite app_comm_cons, app_assoc, last_snoc.
      + destruct Hr as (HE & p & Hfault).
        assert (He : e = KeyboardInterrupt).
        { destruct e as [|code|s]; [done| |done]. exfalso.
          rewrite (ext_open_fault _ _ _ _ Hext0) in Hfault.
          rewrite (ext_copy_fault _ _ _ _ Hext0) in Hfault.
          destruct Hfault as [Hf|[dst Hf]];
            [by apply Hno1 in Hf | by apply Hno2 in Hf]. }
        subst e.
        eexists _, _, ((_ ++ _) ++ [MsgInterrupted]), ((_ ++ _) ++ []).
        split; [reflexivity|]. split.
        { eapply extends_trans; [|apply extends_emit].
          by eapply extends_trans. }
        right. split; [done|]. left. by rewrite last_snoc. }
  destruct sys_argv as [|a [|file_path more]]; [apply Hcopier..|].
  destruct (fs_exists (fs w) file_path && _); [apply Hcopier|].
  eexists _, _, (opening_lines DOCX_AVAILABLE ++ [MsgInvalidPath file_path]),
    ([] ++ []).
  split; [reflexivity|].
  split; [eapply extends_trans; [exact Hext0|apply extends_emit]|].
  left. split; [done|]. exists (MsgInvalidPath file_path).
  split; [by rewrite last_snoc|]. right. right. by exists file_path.
Qed.

(** The theorem at work: the user interrupts the open of [b/report.docx];
    the run ends with status 1. *)
Lemma exit_status_is_0_or_1_witness :
  exists code w',
    run_script Examples.ascii_lower true Examples.proj [Examples.script]
      Examples.interrupting = (code, w')
    /\ code = 1.
Proof.
  destruct (exit_status_is_0_or_1 Examples.ascii_lower true Examples.proj
              [Examples.script] Examples.interrupting)
    as (code & w' & out & tr & Hrun & _ & _).
  - split.
    + intros p code H.
      change (open_fault Examples.interrupting p)
        with (if bool_decide (p = Examples.report_b)
              then Some KeyboardInterrupt else None) in H.
      destruct (bool_decide (p = Examples.report_b)); discriminate.
    + intros src dst code H. discriminate.
  - exists code, w'. split; [exact Hrun|].
    assert (Hc : fst (run_script Examples.ascii_lower true Examples.proj
                        [Examples.script] Examples.interrupting) = 1)
      by (vm_compute; reflexivity).
    rewrite Hrun in Hc. exact Hc.
Defined.

(** X6. A destination directory that cannot be created. When [main] calls
    the copier (no argument, or a valid single file) and a regular file
    stands where the destination directory or one of its parents should be,
    the run prints the unexpected-error message and ends with status 1.
    Nothing is created, no candidate is looked for, opened or copied. *)
Theorem blocked_destination_exits_1 (lower : str -> str)
    (DOCX_AVAILABLE : bool) (project_root : Path) (sys_argv : list Path)
    (w : World) :
  calls_the_copier lower sys_argv w ->
  mkdir_blocked (fs w) (target_dir_at w) = true ->
  exists w',
    run_script lower DOCX_AVAILABLE project_root sys_argv w = (1, w')
    /\ stdout w'
       = stdout w ++ opening_lines DOCX_AVAILABLE
         ++ [MsgUnexpected (Exception "FileExistsError")]
    /\ fs w' = fs w
    /\ trace w' = trace w.
Proof.
  intros Hcall Hmk. rewrite run_script_run.
  destruct (after_opening_extends DOCX_AVAILABLE w) as ([] & Hfs0 & Htk0).
  assert (Hcopier : forall single,
            copy_non_investment_docx_files lower DOCX_AVAILABLE project_root
              single (after_opening DOCX_AVAILABLE w)
            = (Raise (Exception "FileExistsError"),
               tick (after_opening DOCX_AVAILABLE w))).
  { intros single.
    destruct (copier_run lower DOCX_AVAILABLE project_root single
                (after_opening DOCX_AVAILABLE w)) as [[_ ->]|[Hn _]]; [done|].
    rewrite target_dir_at_after_opening, Hfs0 in Hn. congruence. }
  assert (Hend : exists w',
            (1, emit (MsgUnexpected (Exception "FileExistsError"))
                  (tick (after_opening DOCX_AVAILABLE w))) = (1, w')
            /\ stdout w'
               = stdout w ++ opening_lines DOCX_AVAILABLE
                 ++ [MsgUnexpected (Exception "FileExistsError")]
            /\ fs w' = fs w /\ trace w' = trace w).
  { eexists. split; [reflexivity|]. cbn [stdout fs trace emit tick].
    rewrite ext_stdout0, ext_trace0, app_nil_r, <- app_assoc. done. }
  destruct sys_argv as [|a [|file_path more]].
  1,2: by rewrite Hcopier.
  destruct Hcall as [-> Hsuffix].
  rewrite (bool_decide_eq_true_2 _ Hsuffix). cbn [andb].
  by rewrite Hcopier.
Qed.

(** The theorem at work: [/Users] is a regular file. *)
Lemma blocked_destination_exits_1_witness :
  exists w',
    run_script Examples.ascii_lower true Examples.proj [Examples.script]
      (Examples.quiet Examples.fs_users_is_file) = (1, w')
    /\ fs w' = Examples.fs_users_is_file.
Proof.
  destruct (blocked_destination_exits_1 Examples.ascii_lower true
              Examples.proj [Examples.script]
              (Examples.quiet Examples.fs_users_is_file))
    as (w' & Hrun & _ & Hfs & _).
  - exact I.
  - vm_compute. reflexivity.
  - exists w'. split; [exact Hrun|exact Hfs].
Defined.

Lemma completed_copies_le_attempts (tr : list event) :
  (completed_copies tr <= length (omap copy_source tr))%nat.
Proof.
  unfold completed_copies. induction tr as [|ev tr IH]; [done|].
  destruct ev as [p|p|src dst [|]]; cbn in *; lia.
Qed.

(** X7. Single-file mode. When the first argument names an existing path
    whose suffix lowercases to ".docx", the destination directory can be
    created and neither the open nor the copy of that file is interrupted,
    the run ends with status 0 whether or not the source tree exists. It
    opens that file only (under the content strategy), attempts at most one
    copy, of that file, closes it with exactly one line and reports a count
    of at most 1, equal to the number of copies completed. *)
Theorem single_file_run (lower : str -> str) (DOCX_AVAILABLE : bool)
    (project_root script file_path : Path) (more : list Path) (w : World) :
  fs_exists (fs w) file_path = true ->
  lower (Path_suffix file_path) = lit ".docx" ->
  mkdir_blocked (fs w) (target_dir_at w) = false ->
  only_Exceptions w [file_path] ->
  exists w' out tr,
    run_script lower DOCX_AVAILABLE project_root
      (script :: file_path :: more) w = (0, w')
    /\ extends w w' out tr
    /\ omap opened_document tr
       = (if DOCX_AVAILABLE then [file_path] else [])
    /\ omap copy_source tr `sublist_of` [file_path]
    /\ omap closing_line out = [Path_name file_path]
    /\ last out = Some (MsgDone (completed_copies tr) (target_dir_at w))
    /\ (completed_copies tr <= 1)%nat.
Proof.
  intros Hex Hsuffix Hmk Hno. rewrite run_script_run, Hex.
  rewrite (bool_decide_eq_true_2 _ Hsuffix). cbn [andb].
  destruct (after_opening_extends DOCX_AVAILABLE w) as (Hext0 & Hfs0 & Htk0).
  set (w0 := after_opening DOCX_AVAILABLE w) in *.
  assert (Htd : target_dir_at w0 = target_dir_at w)
    by apply target_dir_at_after_opening.
  set (td := target_dir_at w) in *.
  rewrite single_file_mode_run, Htd, Hfs0, Hmk.
  set (w1 := emit (MsgSingleFile (Path_name file_path))
               (emit (MsgTargetDir td)
                  (record (EvMkdir td)
                     (set_fs (make_dirs (fs w) td) (tick w0))))).
  assert (Hext1 : extends w0 w1
                    [MsgTargetDir td; MsgSingleFile (Path_name file_path)]
                    [EvMkdir td])
    by (split; simpl; rewrite <- ?app_assoc; done).
  destruct (classify_and_copy_run lower DOCX_AVAILABLE td [file_path] w1)
    as (r & w' & out & tr & Hrun & Hext & Hsub & Hr).
  rewrite Hrun. destruct r as [[]|e].
  - destruct Hr as (Hlast & Hcl & Hop).
    exists w',
      (opening_lines DOCX_AVAILABLE
       ++ [MsgTargetDir td; MsgSingleFile (Path_name file_path)] ++ out),
      ([] ++ [EvMkdir td] ++ tr).
    split; [done|].
    split; [eapply extends_trans; [exact Hext0|by eapply extends_trans]|].
    cbn [app]. rewrite !omap_app.
    assert (Ho : omap closing_line (opening_lines DOCX_AVAILABLE) = [])
      by (by destruct DOCX_AVAILABLE).
    rewrite Ho. cbn [omap list_omap closing_line opened_document copy_source
                     app].
    split; [done|]. split; [done|]. split; [done|]. split.
    + apply last_Some in Hlast as [l' ->].
      rewrite !app_comm_cons, !app_assoc. apply last_snoc.
    + apply sublist_length in Hsub. simpl in Hsub.
      etrans; [apply completed_copies_le_attempts|exact Hsub].
  - exfalso. destruct Hr as (HE & p & Hp & Hfault).
    destruct (Hno p Hp) as [H1 H2].
    rewrite (ext_open_fault _ _ _ _ Hext1),
      (ext_copy_fault _ _ _ _ Hext1),
      (ext_open_fault _ _ _ _ Hext0),
      (ext_copy_fault _ _ _ _ Hext0) in Hfault.
    destruct Hfault as [Hf|[dst Hf]].
    + specialize (H1 e Hf). congruence.
    + specialize (H2 dst e Hf). congruence.
Qed.

(** The theorem at work: [b/report.docx] alone, on a machine that has the
    file but whose tree holds other reports too. *)
Lemma single_file_run_witness :
  exists w',
    run_script Examples.ascii_lower true Examples.proj
      [Examples.script; Examples.report_b]
      (Examples.quiet Examples.fs_reports) = (0, w')
    /\ last (stdout w') = Some (MsgDone 1 Examples.today).
Proof.
  destruct (single_file_run Examples.ascii_lower true Examples.proj
              Examples.script Examples.report_b []
              (Examples.quiet Examples.fs_reports))
    as (w' & out & tr & Hrun & _).
  - vm_compute. reflexivity.
  - vm_compute. reflexivity.
  - vm_compute. reflexivity.
  - intros p _. split; intros; discriminate.
  - exists w'. split; [exact Hrun|].
    assert (Hl : last (stdout (snd (run_script Examples.ascii_lower true
                                      Examples.proj
                                      [Examples.script; Examples.report_b]
                                      (Examples.quiet Examples.fs_reports))))
                 = Some (MsgDone 1 Examples.today))
      by (vm_compute; reflexivity).
    rewrite Hrun in Hl. exact Hl.
Defined.

(** ** The enumeration *)

Lemma candidates_NoDup (project_root : Path) (w : World) :
  NoDup (candidates_at project_root w).
Proof.
  unfold candidates_at. apply NoDup_ListNoDup, List.NoDup_filter,
    NoDup_ListNoDup.
  assert (Hm : List.map fst (map_to_list (fs w)) = (map_to_list (fs w)).*1).
  { induction (map_to_list (fs w)) as [|x l IH]; [done|].
    simpl. by rewrite IH. }
  rewrite Hm. apply NoDup_fst_map_to_list.
Qed.

(** Creating the destination directory does not change which paths are
    candidates. *)
Lemma candidates_same_after_mkdir (project_root : Path) (w w' t : World) :
  fs w' = make_dirs (fs w) (target_dir_at t) ->
  candidates_at project_root w' ≡ₚ candidates_at project_root w.
Proof.
  intros Hfs. apply NoDup_Permutation; [apply candidates_NoDup..|].
  intros p. split; [by apply (candidates_after_mkdir _ w w' t)|].
  rewrite !elem_of_candidates_at, Hfs. intros (Hs & Hb & He).
  split; [|done]. by apply make_dirs_fs.
Qed.

(** X8. A directory-mode run that is not interrupted. When the source
    directory exists, the destination directory can be created and no open
    or copy of a candidate is interrupted, the run ends with status 0. The
    candidates it processes are, each exactly once and in some order, the
    entries below the source directory whose names end in ".docx" (as they
    were before the destination directory was created); it prints how many
    it found, closes each with exactly one line, opens each exactly once
    under the content strategy, attempts no copy twice, and its last line
    reports the number of copies completed. *)
Theorem directory_run_completes (lower : str -> str) (DOCX_AVAILABLE : bool)
    (project_root : Path) (sys_argv : list Path) (w : World) :
  (length sys_argv <= 1)%nat ->
  fs_exists (fs w) (source_dir_of project_root) = true ->
  mkdir_blocked (fs w) (target_dir_at w) = false ->
  only_Exceptions w (candidates_at project_root w) ->
  exists w' out tr files,
    run_script lower DOCX_AVAILABLE project_root sys_argv w = (0, w')
    /\ extends w w' out tr
    /\ files ≡ₚ candidates_at project_root w
    /\ NoDup files
    /\ MsgFound (length files) ∈ out
    /\ omap closing_line out = List.map Path_name files
    /\ omap opened_document tr = (if DOCX_AVAILABLE then files else [])
    /\ omap copy_source tr `sublist_of` files
    /\ last out = Some (MsgDone (completed_copies tr) (target_dir_at w)).
Proof.
  intros Hargs Hsrc Hmk Hno.
  destruct (after_opening_extends DOCX_AVAILABLE w) as (Hext0 & Hfs0 & Htk0).
  set (w0 := after_opening DOCX_AVAILABLE w) in *.
  assert (Htd : target_dir_at w0 = target_dir_at w)
    by apply target_dir_at_after_opening.
  set (td := target_dir_at w) in *.
  set (w1 := emit (MsgTargetDir td)
               (record (EvMkdir td)
                  (set_fs (make_dirs (fs w0) td) (tick w0)))).
  set (files := candidates_at project_root w1).
  set (w2 := emit (MsgFound (length files)) w1).
  assert (Hext2 : extends w0 w2 [MsgTargetDir td; MsgFound (length files)]
                    [EvMkdir td])
    by (split; simpl; rewrite <- ?app_assoc; done).
  assert (Hperm : files ≡ₚ candidates_at project_root w).
  { apply (candidates_same_after_mkdir project_root w w1 w).
    subst w1. cbn [fs emit record set_fs]. by rewrite Hfs0. }
  assert (Hbody : copy_non_investment_docx_files lower DOCX_AVAILABLE
                    project_root None w0
                  = classify_and_copy lower DOCX_AVAILABLE td files w2).
  { rewrite directory_mode_run, Htd, Hfs0, Hmk. cbv zeta.
    rewrite <- Hfs0. fold w1.
    assert (Hs : fs_exists (fs w1) (source_dir_of project_root) = true).
    { subst w1. cbn [fs emit record set_fs]. rewrite Hfs0.
      by apply make_dirs_keeps_existing. }
    by rewrite Hs. }
  destruct (classify_and_copy_run lower DOCX_AVAILABLE td files w2)
    as (r & w' & out & tr & Hrun & Hext & Hsub & Hr).
  destruct r as [[]|e].
  - destruct Hr as (Hlast & Hcl & Hop).
    exists w',
      (opening_lines DOCX_AVAILABLE
       ++ [MsgTargetDir td; MsgFound (length files)] ++ out),
      ([] ++ [EvMkdir td] ++ tr), files.
    split.
    { rewrite run_script_run. fold w0.
      destruct (no_argument_cases _ Hargs) as [->|[a ->]];
        by rewrite Hbody, Hrun. }
    split; [eapply extends_trans; [exact Hext0|by eapply extends_trans]|].
    split; [exact Hperm|].
    split; [subst files; apply candidates_NoDup|].
    split.
    { apply elem_of_app. right. apply list_elem_of_further,
        list_elem_of_here. }
    cbn [app]. rewrite !omap_app.
    assert (Ho : omap closing_line (opening_lines DOCX_AVAILABLE) = [])
      by (by destruct DOCX_AVAILABLE).
    rewrite Ho. cbn [omap list_omap closing_line opened_document copy_source
                     app].
    split; [done|]. split; [done|]. split; [done|].
    apply last_Some in Hlast as [l' ->].
    rewrite !app_comm_cons, !app_assoc. apply last_snoc.
  - exfalso. destruct Hr as (HE & p & Hp & Hfault).
    destruct (Hno p) as [H1 H2]; [by rewrite <- Hperm|].
    rewrite (ext_open_fault _ _ _ _ Hext2),
      (ext_copy_fault _ _ _ _ Hext2),
      (ext_open_fault _ _ _ _ Hext0),
      (ext_copy_fault _ _ _ _ Hext0) in Hfault.
    destruct Hfault as [Hf|[dst Hf]].
    + specialize (H1 e Hf). congruence.
    + specialize (H2 dst e Hf). congruence.
Qed.

(** The theorem at work: the example tree, four candidates, one of them
    advice and one unreadable. *)
Lemma directory_run_completes_witness :
  exists w',
    run_script Examples.ascii_lower true Examples.proj [Examples.script]
      (Examples.quiet Examples.fs_reports) = (0, w')
    /\ last (stdout w') = Some (MsgDone 3 Examples.today).
Proof.
  destruct (directory_run_completes Examples.ascii_lower true Examples.proj
              [Examples.script] (Examples.quiet Examples.fs_reports))
    as (w' & out & tr & files & Hrun & _).
  - simpl. lia.
  - vm_compute. reflexivity.
  - vm_compute. reflexivity.
  - intros p _. split; intros; discriminate.
  - exists w'. split; [exact Hrun|].
    assert (Hl : last (stdout (snd (run_script Examples.ascii_lower true
                                      Examples.proj [Examples.script]
                                      (Examples.quiet Examples.fs_reports))))
                 = Some (MsgDone 3 Examples.today))
      by (vm_compute; reflexivity).
    rewrite Hrun in Hl. exact Hl.
Defined.

(** ** Collisions on a fresh destination *)

Lemma decide_should_copy_stable (lower : str -> str) (DOCX_AVAILABLE : bool)
    (w w' : World) (p : Path) :
  open_fault w' = open_fault w -> fs w' !! p = fs w !! p ->
  fst (decide_should_copy lower DOCX_AVAILABLE p w')
  = fst (decide_should_copy lower DOCX_AVAILABLE p w).
Proof.
  intros Hof Hfs. rewrite !decide_should_copy_run.
  destruct DOCX_AVAILABLE; [|done].
  assert (Hd : Document_outcome w' p = Document_outcome w p).
  { unfold Document_outcome, Document. rewrite Hof, Hfs.
    destruct (open_fault w p); [done|].
    by destruct (fs w !! p) as [[|[]]|]. }
  rewrite Hd. destruct (Document_outcome w p) as [doc|e]; [done|].
  by destruct (is_Exception e).
Qed.

(** A pass that copies: where the copy goes and what else changes. *)
Lemma try_candidate_copied (lower : str -> str) (DOCX_AVAILABLE : bool)
    (target_dir f : Path) (n : nat) (w : World) (c : content) :
  says_copy lower DOCX_AVAILABLE w f ->
  fs w !! f = Some (File c) ->
  copy2_error w f (chosen_target w target_dir f) = None ->
  exists w',
    try_candidate lower DOCX_AVAILABLE target_dir f n w = (Ok (n + 1)%nat, w')
    /\ fs w'
       = <[copy2_dest (fs w) f (chosen_target w target_dir f) := File c]>
           (fs w)
    /\ ticks w'
       = (if fs_exists (fs w) (joinpath target_dir (Path_name f))
          then S (ticks w) else ticks w)
    /\ clock w' = clock w
    /\ open_fault w' = open_fault w
    /\ copy_fault w' = copy_fault w.
Proof.
  unfold says_copy. intros Hsay Hsrc Herr.
  destruct (decide_should_copy_step lower DOCX_AVAILABLE f w)
    as (r1 & w1 & o1 & t1 & Hrun & Hext & Hfs & Htk & _).
  rewrite Hrun in Hsay. cbn [fst] in Hsay. subst r1.
  unfold try_candidate, try_except_Exception.
  rewrite (process_candidate_after_decision _ _ _ _ _ _ _ _ Hrun).
  rewrite copy_phase_run. cbv zeta.
  assert (Ht : chosen_target w1 target_dir f = chosen_target w target_dir f).
  { unfold chosen_target. by rewrite Hfs, Htk, (ext_clock _ _ _ _ Hext). }
  assert (He : copy2_error w1 f (chosen_target w target_dir f) = None).
  { unfold copy2_error in *. by rewrite Hfs, (ext_copy_fault _ _ _ _ Hext). }
  rewrite Ht, He, Hfs, Hsrc. eexists. split; [reflexivity|].
  destruct Hext. cbn [fs ticks clock open_fault copy_fault emit record set_fs].
  split; [done|].
  destruct (fs_exists _ _); cbn [ticks clock open_fault copy_fault tick];
    rewrite Htk; done.
Qed.

Lemma removelast_snoc {A} (l : list A) (x : A) : removelast (l ++ [x]) = l.
Proof. apply removelast_last. Qed.

Lemma fs_exists_absent (f : gmap Path node) (p : Path) (x : str) :
  f !! (p ++ [x]) = None -> fs_exists f (p ++ [x]) = false.
Proof. intros H. destruct p as [|y p]; simpl in *; by rewrite H. Qed.

Lemma fs_is_dir_absent (f : gmap Path node) (p : Path) (x : str) :
  f !! (p ++ [x]) = None -> fs_is_dir f (p ++ [x]) = false.
Proof. intros H. destruct p as [|y p]; simpl in *; by rewrite H. Qed.

(** The copy of a file to a free place in an existing directory does not
    raise, provided the environment lets it be. *)
Lemma copy2_error_free_place (w : World) (src dir : Path) (x : str)
    (c : content) :
  copy_fault w src (dir ++ [x]) = None ->
  fs w !! src = Some (File c) ->
  fs w !! (dir ++ [x]) = None ->
  fs_is_dir (fs w) dir = true ->
  copy2_error w src (dir ++ [x]) = None
  /\ copy2_dest (fs w) src (dir ++ [x]) = dir ++ [x].
Proof.
  intros Hcf Hsrc Hfree Hdir.
  assert (Hd : copy2_dest (fs w) src (dir ++ [x]) = dir ++ [x]).
  { unfold copy2_dest. by rewrite fs_is_dir_absent. }
  split; [|done]. unfold copy2_error. rewrite Hcf, Hsrc. cbv zeta.
  rewrite Hd, fs_is_dir_absent, removelast_snoc, Hdir by done.
  rewrite bool_decide_eq_false_2; [done|]. intros Heq.
  rewrite Heq in Hfree. congruence.
Qed.

Lemma Path_name_snoc (p : Path) (x : str) : Path_name (p ++ [x]) = x.
Proof. unfold Path_name. by rewrite last_snoc. Qed.

Lemma renamed_not_empty (nm : str) (t : datetime) : renamed nm t <> [].
Proof.
  unfold renamed. replace (lit "_") with [95] by reflexivity.
  by destruct (stem_of_name nm).
Qed.

Lemma joinpath_snoc (p : Path) (x : str) : x <> [] -> joinpath p x = p ++ [x].
Proof. by destruct x. Qed.

Lemma fs_is_dir_insert_below (f : gmap Path node) (d : Path) (x : str)
    (nd : node) :
  fs_is_dir f d = true -> fs_is_dir (<[d ++ [x] := nd]> f) d = true.
Proof.
  destruct d as [|y d]; [done|]. unfold fs_is_dir.
  rewrite lookup_insert_ne; [done|].
  intros H. apply (f_equal length) in H. rewrite length_app in H.
  simpl in H. lia.
Qed.

(** X9. A collision on a fresh destination. Two candidates share the file
    name [nm]; both are regular files that the classification says to copy;
    the destination directory exists and holds neither [nm] nor the name
    that the clock reading of the moment gives on a collision; the
    environment does not refuse the copies. Then the loop copies both and
    reports 2: the first is found under [nm], the second under the
    time-stamped name, the two places differ, and everything that was in
    the file tree before is still there unchanged. *)
Theorem fresh_collision_two_files (lower : str -> str)
    (DOCX_AVAILABLE : bool) (target_dir f1 f2 : Path) (nm : str)
    (c1 c2 : content) (w : World) :
  Path_name f1 = nm /\ Path_name f2 = nm /\ nm <> [] ->
  fs w !! f1 = Some (File c1) /\ fs w !! f2 = Some (File c2) ->
  says_copy lower DOCX_AVAILABLE w f1 /\ says_copy lower DOCX_AVAILABLE w f2 ->
  fs_is_dir (fs w) target_dir = true ->
  fs w !! (target_dir ++ [nm]) = None ->
  fs w !! (target_dir ++ [renamed nm (clock w (ticks w))]) = None ->
  (forall dst, copy_fault w f1 dst = None /\ copy_fault w f2 dst = None) ->
  exists w',
    process_candidates lower DOCX_AVAILABLE target_dir [f1; f2] 0 w
    = (Ok 2%nat, w')
    /\ target_dir ++ [nm]
       <> target_dir ++ [renamed nm (clock w (ticks w))]
    /\ fs w' !! (target_dir ++ [nm]) = Some (File c1)
    /\ fs w' !! (target_dir ++ [renamed nm (clock w (ticks w))])
       = Some (File c2)
    /\ (forall p nd, fs w !! p = Some nd -> fs w' !! p = Some nd).
Proof.
  intros (Hn1 & Hn2 & Hnm) (Hs1 & Hs2) (Hsay1 & Hsay2) Hdir Hfree1 Hfree2 Hcf.
  set (r := renamed nm (clock w (ticks w))) in *.
  set (d1 := target_dir ++ [nm]) in *.
  set (d2 := target_dir ++ [r]) in *.
  assert (Hne : d1 <> d2).
  { subst d1 d2 r. intros H. apply app_inv_head in H.
    injection H as H. symmetry in H.
    by apply renamed_target_differs in H. }
  (* the first candidate *)
  assert (Ht1 : chosen_target w target_dir f1 = d1).
  { unfold chosen_target. rewrite Hn1, joinpath_snoc by done. fold d1.
    subst d1. by rewrite fs_exists_absent. }
  destruct (copy2_error_free_place w f1 target_dir nm c1) as [He1 Hd1];
    try done; [apply Hcf|]. fold d1 in He1, Hd1.
  destruct (try_candidate_copied lower DOCX_AVAILABLE target_dir f1 0 w c1)
    as (w1 & Hrun1 & Hfs1 & Htk1 & Hck1 & Hof1 & Hcf1);
    [done|done|by rewrite Ht1|].
  rewrite Ht1, Hd1 in Hfs1.
  rewrite Hn1, joinpath_snoc in Htk1 by done.
  rewrite fs_exists_absent in Htk1 by done.
  (* the second candidate *)
  assert (Hf2 : fs w1 !! f2 = Some (File c2)).
  { rewrite Hfs1, lookup_insert_ne; [done|]. intros <-. congruence. }
  assert (Ht2 : chosen_target w1 target_dir f2 = d2).
  { unfold chosen_target. rewrite Hn2, joinpath_snoc by done. fold d1.
    assert (Hex : fs_exists (fs w1) d1 = true).
    { rewrite Hfs1. subst d1. destruct target_dir; simpl;
        by rewrite lookup_insert_eq. }
    rewrite Hex. unfold Path_stem, Path_suffix. subst d1.
    rewrite Path_name_snoc, Hck1, Htk1.
    change (stem_of_name nm ++ lit "_" ++ strftime_HMS (clock w (ticks w))
            ++ suffix_of_name nm) with r.
    apply joinpath_snoc, renamed_not_empty. }
  destruct (copy2_error_free_place w1 f2 target_dir r c2) as [He2 Hd2].
  { rewrite Hcf1. apply Hcf. }
  { done. }
  { fold d2. rewrite Hfs1, lookup_insert_ne; done. }
  { rewrite Hfs1. by apply fs_is_dir_insert_below. }
  fold d2 in He2, Hd2.
  destruct (try_candidate_copied lower DOCX_AVAILABLE target_dir f2
              (0 + 1) w1 c2)
    as (w2 & Hrun2 & Hfs2 & _).
  { unfold says_copy.
    rewrite (decide_should_copy_stable lower DOCX_AVAILABLE w w1 f2);
      [done|done|]. congruence. }
  { done. }
  { by rewrite Ht2. }
  rewrite Ht2, Hd2 in Hfs2.
  exists w2. split.
  { cbn [process_candidates]. unfold bind. rewrite Hrun1, Hrun2. done. }
  split; [done|]. rewrite Hfs2, Hfs1.
  split; [by rewrite lookup_insert_ne, lookup_insert_eq|].
  split; [by rewrite lookup_insert_eq|].
  intros p nd Hp. rewrite !lookup_insert_ne; [done|..]; intros <-; congruence.
Qed.

(** The theorem at work: the two [report.docx] of the example tree, with
    today's directory in place and empty. *)
Lemma fresh_collision_two_files_witness :
  exists w',
    process_candidates Examples.ascii_lower true Examples.today
      [Examples.report_a; Examples.report_b] 0
      (Examples.quiet Examples.fs_reports_dest) = (Ok 2%nat, w')
    /\ fs w' !! (Examples.today ++ [lit "report.docx"])
       = Some (File Examples.observation_A)
    /\ fs w' !! (Examples.today ++ [lit "report_120000.docx"])
       = Some (File Examples.observation_B).
Proof.
  destruct (fresh_collision_two_files Examples.ascii_lower true
              Examples.today Examples.report_a Examples.report_b
              (lit "report.docx") Examples.observation_A
              Examples.observation_B
              (Examples.quiet Examples.fs_reports_dest))
    as (w' & Hrun & _ & H1 & H2 & _).
  - repeat split; [vm_compute; reflexivity..|vm_compute; discriminate].
  - split; vm_compute; reflexivity.
  - split; vm_compute; reflexivity.
  - vm_compute. reflexivity.
  - vm_compute. reflexivity.
  - vm_compute. reflexivity.
  - intros dst. split; reflexivity.
  - exists w'. split; [exact Hrun|]. split; [exact H1|].
    assert (Hr : lit "report_120000.docx"
                 = renamed (lit "report.docx")
                     (clock (Examples.quiet Examples.fs_reports_dest)
                        (ticks (Examples.quiet Examples.fs_reports_dest))))
      by (vm_compute; reflexivity).
    rewrite Hr. exact H2.
Defined.

(** ** Names on a collision *)

Lemma endswith_split (s p : str) :
  endswith s p = true <-> exists pre, s = pre ++ p.
Proof.
  unfold endswith. rewrite startswith_prefix_of. split.
  - intros [k Hk]. exists (rev k).
    rewrite <- (rev_involutive s), Hk, rev_app_distr.
    by rewrite rev_involutive.
  - intros [pre ->]. exists (rev pre). apply rev_app_distr.
Qed.

Lemma rfind_last_occurrence (c : N) (a b : str) :
  rfind c b = None -> rfind c (a ++ c :: b) = Some (length a).
Proof.
  intros Hb. induction a as [|x a IH]; cbn [app rfind length].
  - by rewrite Hb, N.eqb_refl.
  - by rewrite IH.
Qed.

(** The stem and the suffix of a name that ends in ".docx" and is more than
    that. *)
Lemma docx_name_parts (pre : str) :
  pre <> [] ->
  stem_of_name (pre ++ docx_pattern) = pre
  /\ suffix_of_name (pre ++ docx_pattern) = docx_pattern.
Proof.
  intros Hpre. unfold stem_of_name, suffix_of_name, split_at_suffix.
  replace docx_pattern with (dot :: lit "docx") by reflexivity.
  rewrite rfind_last_occurrence by reflexivity.
  assert (Hc : ((0 <? length pre)
                && (length pre <? length (pre ++ dot :: lit "docx") - 1))%nat
               = true).
  { rewrite length_app. change (length (dot :: lit "docx")) with 5%nat.
    destruct pre; [done|]. apply andb_true_iff.
    split; [apply Nat.ltb_lt | apply Nat.ltb_lt]; simpl; lia. }
  rewrite Hc. split; [apply take_app_length | apply drop_app_length].
Qed.

(** X10. The name given on a collision. A candidate named [stem.docx] is
    renamed [stem_HHMMSS.docx]: the time stamp goes between the stem and
    the extension, which is kept. The one exception among the names that
    end in ".docx" is the name ".docx" itself, which has no suffix for
    pathlib: it becomes [.docx_HHMMSS] and no longer ends in ".docx". *)
Theorem renamed_keeps_extension (nm : str) (t : datetime) :
  endswith nm docx_pattern = true ->
  (nm <> docx_pattern ->
   exists pre,
     pre <> [] /\ nm = pre ++ docx_pattern
     /\ renamed nm t = pre ++ lit "_" ++ strftime_HMS t ++ docx_pattern
     /\ endswith (renamed nm t) docx_pattern = true)
  /\ (nm = docx_pattern ->
      renamed nm t = docx_pattern ++ lit "_" ++ strftime_HMS t
      /\ endswith (renamed nm t) docx_pattern = false).
Proof.
  intros Hend. split.
  - intros Hne. apply endswith_split in Hend as [pre ->].
    assert (Hpre : pre <> []) by (by intros ->).
    exists pre. destruct (docx_name_parts pre Hpre) as [Hstem Hsuf].
    assert (Hr : renamed (pre ++ docx_pattern) t
                 = pre ++ lit "_" ++ strftime_HMS t ++ docx_pattern).
    { unfold renamed. by rewrite Hstem, Hsuf. }
    split; [done|]. split; [done|]. split; [done|].
    rewrite Hr. apply endswith_split.
    exists (pre ++ lit "_" ++ strftime_HMS t). by rewrite <- !app_assoc.
  - intros ->.
    assert (Hr : renamed docx_pattern t
                 = docx_pattern ++ lit "_" ++ strftime_HMS t).
    { unfold renamed.
      replace (stem_of_name docx_pattern) with docx_pattern by reflexivity.
      replace (suffix_of_name docx_pattern) with (@nil N) by reflexivity.
      by rewrite app_nil_r. }
    split; [done|]. rewrite Hr.
    replace docx_pattern with [46; 100; 111; 99; 120] by reflexivity.
    replace (lit "_") with [95] by reflexivity.
    unfold endswith, strftime_HMS, pad2. cbn [app rev startswith].
    rewrite bool_decide_eq_false_2; [done | apply digit_is_not_x].
Qed.

(** The theorem at work, on [report.docx] at noon. *)
Lemma renamed_keeps_extension_witness :
  renamed (lit "report.docx") Examples.noon = lit "report_120000.docx".
Proof.
  destruct (renamed_keeps_extension (lit "report.docx") Examples.noon)
    as [Hkeep _].
  - reflexivity.
  - destruct Hkeep as (pre & _ & Hnm & Hr & _).
    + vm_compute. discriminate.
    + rewrite Hr.
      assert (Hpre : pre = lit "report").
      { apply (app_inv_tail docx_pattern). rewrite <- Hnm. reflexivity. }
      rewrite Hpre. reflexivity.
Defined.

(** ** A destination inside the source tree *)

Lemma is_below_shorter (a b d : Path) :
  is_below (a ++ b) d = true -> is_below a d = true.
Proof.
  unfold is_below. rewrite !andb_true_iff, !startswith_prefix_of.
  rewrite !Nat.ltb_lt, length_app. intros [[k ->] Hl]. split; [|lia].
  exists (b ++ k). by rewrite app_assoc.
Qed.

Lemma renamed_docx_ends_docx (nm : str) (t : datetime) :
  endswith nm docx_pattern = true -> nm <> docx_pattern ->
  endswith (renamed nm t) docx_pattern = true.
Proof.
  intros Hend Hne. apply endswith_split in Hend as [pre ->].
  assert (Hpre : pre <> []) by (by intros ->).
  destruct (docx_name_parts pre Hpre) as [Hstem Hsuf].
  unfold renamed. rewrite Hstem, Hsuf. apply endswith_split.
  exists (pre ++ lit "_" ++ strftime_HMS t). by rewrite <- !app_assoc.
Qed.

(** X11. Copies are candidates. When the project root is the directory
    under which the destination is hard-wired, so that the source directory
    is the base of the destination directories, the place where a pass
    writes the copy of a candidate (a name ending in ".docx", other than
    ".docx" itself) is, in the world the pass leaves, a candidate of
    directory mode: a later run will find the copy and process it as it
    does any other document. *)
Theorem copy_is_a_candidate (lower : str -> str) (DOCX_AVAILABLE : bool)
    (project_root f : Path) (c : content) (n : nat) (w0 w : World) :
  source_dir_of project_root = target_base_dir ->
  says_copy lower DOCX_AVAILABLE w f ->
  fs w !! f = Some (File c) ->
  endswith (Path_name f) docx_pattern = true ->
  Path_name f <> docx_pattern ->
  copy2_error w f (chosen_target w (target_dir_at w0) f) = None ->
  exists w',
    try_candidate lower DOCX_AVAILABLE (target_dir_at w0) f n w
    = (Ok (n + 1)%nat, w')
    /\ fs w' !! copy2_dest (fs w) f (chosen_target w (target_dir_at w0) f)
       = Some (File c)
    /\ copy2_dest (fs w) f (chosen_target w (target_dir_at w0) f)
       ∈ candidates_at project_root w'.
Proof.
  intros Hroot Hsay Hsrc Hend Hne Herr.
  set (td := target_dir_at w0) in *.
  assert (Hname : Path_name f <> []).
  { intros H. rewrite H in Hend. vm_compute in Hend. discriminate. }
  destruct (try_candidate_copied lower DOCX_AVAILABLE td f n w c)
    as (w' & Hrun & Hfs & _); try done.
  set (d := copy2_dest (fs w) f (chosen_target w td f)) in *.
  assert (Hlook : fs w' !! d = Some (File c))
    by (rewrite Hfs; apply lookup_insert_eq).
  exists w'. split; [exact Hrun|]. split; [exact Hlook|].
  apply elem_of_candidates_at. split; [by rewrite Hlook|]. split.
  - rewrite Hroot.
    assert (Hb : is_below td d = true)
      by (apply copy_destination_below; done).
    apply (is_below_shorter target_base_dir [strftime_Ymd (clock w0 (ticks w0))]).
    exact Hb.
  - subst d. unfold copy2_dest, chosen_target.
    rewrite (joinpath_snoc td (Path_name f)) by done.
    unfold Path_stem, Path_suffix. rewrite Path_name_snoc.
    change (stem_of_name (Path_name f) ++ lit "_"
            ++ strftime_HMS (clock w (ticks w))
            ++ suffix_of_name (Path_name f))
      with (renamed (Path_name f) (clock w (ticks w))).
    assert (Hr := renamed_docx_ends_docx (Path_name f) (clock w (ticks w))
                    Hend Hne).
    assert (Hrn := renamed_not_empty (Path_name f) (clock w (ticks w))).
    destruct (fs_exists (fs w) (td ++ [Path_name f])).
    + rewrite (joinpath_snoc td _ Hrn).
      destruct (fs_is_dir (fs w) _).
      * by rewrite joinpath_snoc, Path_name_snoc.
      * by rewrite Path_name_snoc.
    + destruct (fs_is_dir (fs w) _).
      * by rewrite joinpath_snoc, Path_name_snoc.
      * by rewrite Path_name_snoc.
Qed.

(** The theorem at work: the project at its hard-wired place; the copy of
    [results/AAPL/report.docx] in today's directory is a candidate. *)
Lemma copy_is_a_candidate_witness :
  exists w',
    try_candidate Examples.ascii_lower true Examples.today
      Examples.home_report 0 (Examples.quiet Examples.fs_home)
    = (Ok 1%nat, w')
    /\ Examples.today ++ [lit "report.docx"]
       ∈ candidates_at Examples.home_root w'.
Proof.
  destruct (copy_is_a_candidate Examples.ascii_lower true Examples.home_root
              Examples.home_report Examples.observation_B 0
              (Examples.quiet Examples.fs_home)
              (Examples.quiet Examples.fs_home))
    as (w' & Hrun & _ & Hcand).
  - reflexivity.
  - vm_compute. reflexivity.
  - vm_compute. reflexivity.
  - vm_compute. reflexivity.
  - vm_compute. discriminate.
  - vm_compute. reflexivity.
  - exists w'. split; [exact Hrun|].
    assert (Hd : Examples.today ++ [lit "report.docx"]
                 = copy2_dest (fs (Examples.quiet Examples.fs_home))
                     Examples.home_report
                     (chosen_target (Examples.quiet Examples.fs_home)
                        (target_dir_at (Examples.quiet Examples.fs_home))
                        Examples.home_report))
      by (vm_compute; reflexivity).
    rewrite Hd. exact Hcand.
Defined.

(** ** What the existence check protects *)

(** X12. The file of the candidate's own name is safe. If the destination
    directory already holds an entry under the name of the candidate, the
    pass over that candidate leaves that entry exactly as it was, however
    the pass ends: the copy, if one is made, goes elsewhere. (An entry under
    the time-stamped name has no such protection.) *)
Theorem own_name_is_not_overwritten (lower : str -> str)
    (DOCX_AVAILABLE : bool) (target_dir f : Path) (n : nat) (w : World) :
  Path_name f <> [] ->
  is_Some (fs w !! (target_dir ++ [Path_name f])) ->
  fs (snd (try_candidate lower DOCX_AVAILABLE target_dir f n w))
    !! (target_dir ++ [Path_name f])
  = fs w !! (target_dir ++ [Path_name f]).
Proof.
  intros Hname Hsome.
  destruct (try_candidate_fs lower DOCX_AVAILABLE target_dir f n w)
    as [->|(c & _ & _ & ->)]; [done|].
  apply lookup_insert_ne.
  unfold copy2_dest, chosen_target.
  rewrite (joinpath_snoc target_dir (Path_name f)) by done.
  assert (Hex : fs_exists (fs w) (target_dir ++ [Path_name f]) = true).
  { destruct Hsome as [nd Hnd]. unfold fs_exists. rewrite Hnd.
    by destruct target_dir. }
  rewrite Hex. unfold Path_stem, Path_suffix. rewrite Path_name_snoc.
  change (stem_of_name (Path_name f) ++ lit "_"
          ++ strftime_HMS (clock w (ticks w))
          ++ suffix_of_name (Path_name f))
    with (renamed (Path_name f) (clock w (ticks w))).
  rewrite (joinpath_snoc target_dir _
             (renamed_not_empty (Path_name f) (clock w (ticks w)))).
  destruct (fs_is_dir (fs w) _).
  - rewrite joinpath_snoc by done. intros H.
    apply (f_equal length) in H. rewrite !length_app in H. simpl in H. lia.
  - intros H. apply app_inv_head in H. injection H as H.
    by apply renamed_target_differs in H.
Qed.

(** The theorem at work: the earlier [report.docx] of the destination
    survives the pass over [a/report.docx]. *)
Lemma own_name_is_not_overwritten_witness :
  fs (snd (try_candidate Examples.ascii_lower true Examples.today
             Examples.report_a 0 (Examples.quiet Examples.fs_earlier_copy)))
    !! (Examples.today ++ [lit "report.docx"])
  = Some (File Examples.earlier_copy).
Proof.
  assert (Hn : Path_name Examples.report_a = lit "report.docx")
    by (vm_compute; reflexivity).
  rewrite <- Hn.
  rewrite (own_name_is_not_overwritten Examples.ascii_lower true
             Examples.today Examples.report_a 0
             (Examples.quiet Examples.fs_earlier_copy)).
  - rewrite Hn. vm_compute. reflexivity.
  - rewrite Hn. vm_compute. discriminate.
  - rewrite Hn. exists (File Examples.earlier_copy). vm_compute. reflexivity.
Defined.
